(** * DockTiles (app/main.py): container views, port discovery, access gate

    A shallow embedding of [app/main.py] and the properties of its helpers
    and endpoints.

    Conventions.
    - A Python [str] is a Rocq [string]; a character stands for the code
      point of the same number, so the strings covered are those with code
      points below 256.  This is exact for HTTP header values (Starlette
      decodes them as Latin-1) and for everything [str(int)] produces.
    - A Python [int] is a [Z].  The interpreter's limit on the number of
      digits converted between [int] and [str] is not modelled.
    - Code that can raise returns a [result]; [try/except] is [try_except].
    - The container runtime is reached through oracles that are variables
      of a section; the endpoints thread the runtime's state and a log of
      the calls they make. *)

From Stdlib Require Import ZArith NArith List String Ascii Bool Lia.
From Stdlib.Strings Require Import Byte.
From Stdlib Require Import Decimal DecimalString DecimalZ DecimalPos.
Import ListNotations.

Local Open Scope string_scope.
Local Open Scope Z_scope.
Local Open Scope list_scope.

(* ================================================================== *)
(** * Python values and builtins the program uses *)
(* ================================================================== *)

Module Py.

(** Exceptions that the program raises or that reach it. *)
Inductive exn : Type :=
| TypeError
| ValueError
| IndexError
| UnicodeDecodeError
| HTTPException (status_code : Z) (detail : string)
| DockerException (explanation : string).

Inductive result (A : Type) : Type :=
| Ok (a : A)
| Raise (e : exn).
Arguments Ok {A} a.
Arguments Raise {A} e.

Definition bind {A B} (r : result A) (k : A -> result B) : result B :=
  match r with
  | Ok a => k a
  | Raise e => Raise e
  end.

(** [try: body / except (e1, e2, ...): handler]. *)
Definition try_except {A} (body : result A) (caught : exn -> bool)
           (handler : result A) : result A :=
  match body with
  | Ok a => Ok a
  | Raise e => if caught e then handler else Raise e
  end.

Definition is_TypeError_or_ValueError (e : exn) : bool :=
  match e with
  | TypeError | ValueError => true
  | _ => false
  end.

(** ** Truthiness *)

Definition truthy_str (s : string) : bool :=
  match s with
  | EmptyString => false
  | String _ _ => true
  end.

(** An optional string: [None] is falsy, a string is truthy when it is
    not empty. *)
Definition truthy_opt (o : option string) : bool :=
  match o with
  | None => false
  | Some s => truthy_str s
  end.

(** [a or b] on optional strings. *)
Definition or_ (a b : option string) : option string :=
  if truthy_opt a then a else b.

Definition truthy_list {A} (l : list A) : bool :=
  match l with
  | [] => false
  | _ :: _ => true
  end.

(** ** Characters *)

Definition code (c : ascii) : N := N_of_ascii c.

Definition between (lo hi n : N) : bool := ((lo <=? n) && (n <=? hi))%N.

(** [str.lower] on one code point below 256: A-Z and the Latin-1 capitals
    U+00C0..U+00DE except the multiplication sign U+00D7 move up by 32. *)
Definition lower_char (c : ascii) : ascii :=
  let n := code c in
  if between 65 90 n || (between 192 222 n && negb (n =? 215)%N)
  then ascii_of_N (n + 32)
  else c.

Fixpoint lower (s : string) : string :=
  match s with
  | EmptyString => EmptyString
  | String c t => String (lower_char c) (lower t)
  end.

(** [s.startswith(p)]. *)
Definition startswith (s p : string) : bool := String.prefix p s.

(** Code points [str.isspace] accepts, which [str.strip] removes. *)
Definition isspace (c : ascii) : bool :=
  let n := code c in
  between 9 13 n || between 28 32 n || (n =? 133)%N || (n =? 160)%N.

Fixpoint lstrip (s : string) : string :=
  match s with
  | EmptyString => EmptyString
  | String c t => if isspace c then lstrip t else s
  end.

Fixpoint rstrip (s : string) : string :=
  match s with
  | EmptyString => EmptyString
  | String c t =>
      match rstrip t with
      | EmptyString => if isspace c then EmptyString else String c EmptyString
      | t' => String c t'
      end
  end.

Definition strip (s : string) : string := rstrip (lstrip s).

(** ** Splitting *)

(** The text before and after the first occurrence of [sep]. *)
Fixpoint cut (sep : ascii) (s : string) : option (string * string) :=
  match s with
  | EmptyString => None
  | String c t =>
      if Ascii.eqb c sep then Some (EmptyString, t)
      else match cut sep t with
           | Some (a, b) => Some (String c a, b)
           | None => None
           end
  end.

(** [s.split(sep, 1)] for a one-character separator. *)
Definition split1 (sep : ascii) (s : string) : list string :=
  match cut sep s with
  | Some (a, b) => [a; b]
  | None => [s]
  end.

(** [s.split(sep)] for a one-character separator. *)
Fixpoint split (sep : ascii) (s : string) : list string :=
  match s with
  | EmptyString => [EmptyString]
  | String c t =>
      if Ascii.eqb c sep then EmptyString :: split sep t
      else match split sep t with
           | h :: r => String c h :: r
           | [] => [String c EmptyString]
           end
  end.

(** [l[i]]. *)
Definition index {A} (l : list A) (i : nat) : result A :=
  match nth_error l i with
  | Some a => Ok a
  | None => Raise IndexError
  end.

(** ** Integers and text *)

(** [str(n)] for an int: decimal digits, a minus sign when negative. *)
Definition str (n : Z) : string := NilZero.string_of_int (Z.to_int n).

Definition digit (c : ascii) : option Z :=
  let n := code c in
  if between 48 57 n then Some (Z.of_N n - 48) else None.

(** Digits of a decimal literal; one underscore may sit between two
    digits.  [prev] tells whether the character before was a digit. *)
Fixpoint int_digits (acc : Z) (prev : bool) (s : string) : option Z :=
  match s with
  | EmptyString => if prev then Some acc else None
  | String c t =>
      match digit c with
      | Some d => int_digits (10 * acc + d) true t
      | None =>
          if Ascii.eqb c "_" && prev then int_digits acc false t else None
      end
  end.

(** White space that [int] skips around the literal. *)
Definition int_space (c : ascii) : bool :=
  let n := code c in
  between 9 13 n || (n =? 32)%N || (n =? 133)%N || (n =? 160)%N.

Fixpoint int_lskip (s : string) : string :=
  match s with
  | EmptyString => EmptyString
  | String c t => if int_space c then int_lskip t else s
  end.

Fixpoint int_rskip (s : string) : string :=
  match s with
  | EmptyString => EmptyString
  | String c t =>
      match int_rskip t with
      | EmptyString =>
          if int_space c then EmptyString else String c EmptyString
      | t' => String c t'
      end
  end.

Definition int_literal (s : string) : option Z :=
  match int_rskip (int_lskip s) with
  | String "+" t => int_digits 0 false t
  | String "-" t => option_map Z.opp (int_digits 0 false t)
  | t => int_digits 0 false t
  end.

(** [int(x)] where [x] is a string or [None]. *)
Definition int (x : option string) : result Z :=
  match x with
  | None => Raise TypeError
  | Some s =>
      match int_literal s with
      | Some n => Ok n
      | None => Raise ValueError
      end
  end.

(** ** Decoding bytes as UTF-8 *)

Inductive errors : Type := strict | ignore | replace.

(** What the decoder meets: a decoded code point, or a malformed run of
    bytes (an invalid start byte, or a sequence cut short). *)
Inductive event : Type :=
| Char (cp : N)
| Malformed.

(** Between characters, or inside one with [need] continuation bytes to
    come, the next one within [lo..hi]. *)
Inductive dstate : Type :=
| Start
| Cont (need : nat) (acc lo hi : N).

Definition lead (b : N) : list event * dstate :=
  (if b <? 128 then ([Char b], Start)
   else if between 194 223 b then ([], Cont 1 (N.land b 31) 128 191)
   else if b =? 224 then ([], Cont 2 0 160 191)
   else if b =? 237 then ([], Cont 2 13 128 159)
   else if between 225 239 b then ([], Cont 2 (N.land b 15) 128 191)
   else if b =? 240 then ([], Cont 3 0 144 191)
   else if between 241 243 b then ([], Cont 3 (N.land b 7) 128 191)
   else if b =? 244 then ([], Cont 3 4 128 143)
   else ([Malformed], Start))%N.

Definition step (st : dstate) (b : N) : list event * dstate :=
  match st with
  | Start => lead b
  | Cont need acc lo hi =>
      if between lo hi b then
        let acc' := (acc * 64 + N.land b 63)%N in
        match need with
        | S (S n) => ([], Cont (S n) acc' 128 191)
        | _ => ([Char acc'], Start)
        end
      else
        let (ev, st') := lead b in (Malformed :: ev, st')
  end.

Fixpoint scan (st : dstate) (bs : list byte) : list event :=
  match bs with
  | [] => match st with
          | Start => []
          | Cont _ _ _ _ => [Malformed]
          end
  | b :: rest =>
      let (ev, st') := step st (Byte.to_N b) in
      ev ++ scan st' rest
  end.

(** The error handler named by [errors=...]. *)
Fixpoint handle (h : errors) (evs : list event) : result (list N) :=
  match evs with
  | [] => Ok []
  | Char cp :: rest => bind (handle h rest) (fun t => Ok (cp :: t))
  | Malformed :: rest =>
      match h with
      | strict => Raise UnicodeDecodeError
      | ignore => handle h rest
      | replace => bind (handle h rest) (fun t => Ok (65533%N :: t))
      end
  end.

(** [bs.decode(errors=h)]: the text as a list of code points. *)
Definition decode (h : errors) (bs : list byte) : result (list N) :=
  handle h (scan Start bs).

End Py.

Import Py.

Declare Scope py_scope.
Delimit Scope py_scope with py.
Notation "x <- c ;; k" := (Py.bind c (fun x => k))
  (at level 61, c at next level, right associativity) : py_scope.

(** [d.get(key, default)] on a record of the runtime's data, where an
    absent key is [None]. *)
Definition dict_get {A} (field : option A) (default : A) : A :=
  match field with
  | Some v => v
  | None => default
  end.

(* ================================================================== *)
(** * Process-wide settings (lines 19, 20, 38) *)
(* ================================================================== *)

(** [os.environ]: the value of a variable when it is set. *)
Definition environ : Type := string -> option string.

Record Globals : Type := {
  JWT_SECRET : option string;
  ALLOW_ACTIONS : bool;
  PORT_HINTS : list string
}.

(** [[p.strip() for p in parts if p.strip()]]. *)
Fixpoint stripped_parts (parts : list string) : list string :=
  match parts with
  | [] => []
  | p :: rest =>
      if truthy_str (strip p) then strip p :: stripped_parts rest
      else stripped_parts rest
  end.

Definition DEFAULT_HTTP_SCHEMES : string := "8080,3000,80,5000,8000,8888,9090".

Definition load_globals (env : environ) : Globals :=
  {| JWT_SECRET := env "DOCKTILES_JWT_SECRET";
     ALLOW_ACTIONS :=
       String.eqb (lower (dict_get (env "DOCKTILES_ALLOW_ACTIONS") "true")) "true";
     PORT_HINTS :=
       stripped_parts
         (split "," (dict_get (env "DOCKTILES_HTTP_SCHEMES") DEFAULT_HTTP_SCHEMES)) |}.

(** The port hints when [DOCKTILES_HTTP_SCHEMES] is not set. *)
Definition DEFAULT_PORT_HINTS : list string :=
  Eval vm_compute in PORT_HINTS (load_globals (fun _ => None)).

(* ================================================================== *)
(** * Data model *)
(* ================================================================== *)

(** [class PortInfo(BaseModel)]. *)
Module PortInfo.
Record t : Type := { host : string; port : Z }.
End PortInfo.

(** [class ContainerDTO(BaseModel)]. *)
Module ContainerDTO.
Record t : Type := {
  id : string;
  name : string;
  image : string;
  status : string;
  state : string;
  ports : list PortInfo.t
}.
End ContainerDTO.

(** What the runtime client hands to the program.  The inspection data
    ([c.attrs]) follows the Engine API's schema; a field is [None] when its
    key is absent, and a nullable value is an inner [option]. *)
Module Docker.

(** One host binding of a container port. *)
Record PortBinding : Type := {
  HostIp : option string;
  HostPort : option string
}.

(** ['80/tcp': [{'HostIp': '0.0.0.0', 'HostPort': '8080'}]]; the value is
    [None] for [null].  The pairs come in the order [items()] yields them. *)
Definition PortMap : Type := list (string * option (list PortBinding)).

Record NetworkSettingsT : Type := { Ports : option (option PortMap) }.
Record StateT : Type := { Status : option string }.
Record ConfigT : Type := { Image : option string }.

Record Attrs : Type := {
  State : option StateT;
  Config : option ConfigT;
  NetworkSettings : option NetworkSettingsT
}.

(** An image object of the client. *)
Module Image.
Record t : Type := { tags : list string; short_id : string }.
End Image.

(** A container object of the client.  [image] is a property that asks
    the runtime at every access and may raise; within one call of the
    program it is taken to answer the same each time. *)
Module Container.
Record t : Type := {
  attrs : Attrs;
  short_id : string;
  name : string;
  status : string;
  image : result Image.t
}.
End Container.

End Docker.

Import Docker.

(* ================================================================== *)
(** * Helpers (lines 54-90) *)
(* ================================================================== *)

Local Open Scope py_scope.

(** [net.get("Ports", {}) or {}] (lines 56-57). *)
Definition port_map (c : Container.t) : PortMap :=
  let net := dict_get (NetworkSettings (Container.attrs c)) {| Ports := None |} in
  match dict_get (Ports net) (Some []) with
  | Some m => if truthy_list m then m else []
  | None => []
  end.

(** How one turn of the inner loop leaves its [try]. *)
Inductive flow : Type :=
| Parsed (port : Z)
| Continue.

(** [for b in bindings: ...] (lines 61-67), [ports] being the list built
    so far. *)
Fixpoint for_bindings (bindings : list PortBinding) (ports : list PortInfo.t)
  : result (list PortInfo.t) :=
  match bindings with
  | [] => Ok ports
  | b :: rest =>
      let host := dict_get (HostIp b) "127.0.0.1" in
      f <- try_except (port <- Py.int (HostPort b) ;; Ok (Parsed port))
                      is_TypeError_or_ValueError
                      (Ok Continue) ;;
      match f with
      | Continue => for_bindings rest ports
      | Parsed port =>
          for_bindings rest
            (ports ++ [ {| PortInfo.host := host; PortInfo.port := port |} ])
      end
  end.

(** [for container_port, bindings in port_map.items(): ...] (lines 58-67). *)
Fixpoint for_items (items : PortMap) (ports : list PortInfo.t)
  : result (list PortInfo.t) :=
  match items with
  | [] => Ok ports
  | (container_port, bindings) :: rest =>
      match bindings with
      | None => for_items rest ports
      | Some bs =>
          if negb (truthy_list bs) then for_items rest ports
          else ports' <- for_bindings bs ports ;; for_items rest ports'
      end
  end.

Definition _extract_published_ports (c : Container.t) : result (list PortInfo.t) :=
  for_items (port_map c) [].

Section Reload.

(** [c.reload()]: the container with its attributes read afresh from the
    runtime, or the runtime's error. *)
Variable reload : Container.t -> result Container.t.

(** [c.image.tags[0] if c.image.tags else c.image.short_id]. *)
Definition image_default (c : Container.t) : result string :=
  i <- Container.image c ;;
  if truthy_list (Image.tags i)
  then (i <- Container.image c ;; index (Image.tags i) 0)
  else (i <- Container.image c ;; Ok (Image.short_id i)).

Definition _dto (c0 : Container.t) : result ContainerDTO.t :=
  c <- reload c0 ;;
  let state :=
    dict_get (Status (dict_get (State (Container.attrs c)) {| Status := None |}))
             "unknown" in
  let config := dict_get (Config (Container.attrs c)) {| Image := None |} in
  default <- image_default c ;;
  let image := dict_get (Image config) default in
  ports <- _extract_published_ports c ;;
  Ok {| ContainerDTO.id := Container.short_id c;
        ContainerDTO.name := Container.name c;
        ContainerDTO.image := image;
        ContainerDTO.status := Container.status c;
        ContainerDTO.state := state;
        ContainerDTO.ports := ports |}.

End Reload.

(** The inner loop of [[p for hint in PORT_HINTS for p in ports
    if str(p.port) == hint]] (line 89). *)
Fixpoint for_ports (hint : string) (ports hinted : list PortInfo.t)
  : list PortInfo.t :=
  match ports with
  | [] => hinted
  | p :: rest =>
      for_ports hint rest
        (if String.eqb (str (PortInfo.port p)) hint then hinted ++ [p] else hinted)
  end.

(** The outer loop of the same comprehension. *)
Fixpoint for_hints (hints : list string) (ports hinted : list PortInfo.t)
  : list PortInfo.t :=
  match hints with
  | [] => hinted
  | hint :: rest => for_hints rest ports (for_ports hint ports hinted)
  end.

Definition _find_first_http_port (g : Globals) (ports : list PortInfo.t)
  : result (option PortInfo.t) :=
  if negb (truthy_list ports) then Ok None
  else
    let hinted := for_hints (PORT_HINTS g) ports [] in
    p <- (if truthy_list hinted then index hinted 0 else index ports 0) ;;
    Ok (Some p).

(* ================================================================== *)
(** * Access gate (lines 22-31) *)
(* ================================================================== *)

(** [request.headers]: the header lines in the order received, names as
    the server hands them over (lower case).  [get] lowers the key it is
    asked for and returns the value of the first line with that name. *)
Module Headers.
Definition t : Type := list (string * string).

Fixpoint get (h : t) (key : string) : option string :=
  match h with
  | [] => None
  | (k, v) :: rest => if String.eqb k (lower key) then Some v else get rest key
  end.
End Headers.

Module Request.
Record t : Type := { headers : Headers.t }.
End Request.

Definition Missing_bearer_token : exn := HTTPException 401 "Missing bearer token".
Definition Invalid_token : exn := HTTPException 403 "Invalid token".
Definition Actions_disabled : exn := HTTPException 403 "Actions disabled".

(** [token != JWT_SECRET], a string against an optional string. *)
Definition ne_secret (token : string) (secret : option string) : bool :=
  match secret with
  | Some s => negb (String.eqb token s)
  | None => true
  end.

(** The value line 25 binds to [auth]. *)
Definition authorization (request : Request.t) : option string :=
  or_ (Headers.get (Request.headers request) "authorization")
      (Headers.get (Request.headers request) "Authorization").

Definition require_auth (g : Globals) (request : Request.t) : result unit :=
  if negb (truthy_opt (JWT_SECRET g)) then Ok tt
  else
    match authorization request with
    | None => Raise Missing_bearer_token
    | Some auth =>
        if negb (truthy_str auth) || negb (startswith (lower auth) "bearer ")
        then Raise Missing_bearer_token
        else
          token <- index (split1 " " auth) 1 ;;
          if ne_secret token (JWT_SECRET g) then Raise Invalid_token
          else Ok tt
    end.

(* ================================================================== *)
(** * Endpoints (lines 105-127, 147-151) *)
(* ================================================================== *)

(** A call made on the runtime client. *)
Inductive call : Type :=
| containers_get (name : string)
| start (c : Container.t)
| stop (c : Container.t)
| restart (c : Container.t)
| logs (c : Container.t) (tail : Z).

(** What an endpoint returns: [{"ok": True}], or a plain-text body given
    as its code points. *)
Inductive response : Type :=
| ok_true
| PlainTextResponse (content : list N).

Section Endpoints.

(** The state of the runtime, which the program neither sees nor owns,
    and the client's operations on it. *)
Variable World : Type.
Variable docker_get : string -> World -> result Container.t * World.
Variable docker_start docker_stop docker_restart :
  Container.t -> World -> result unit * World.
Variable docker_logs : Container.t -> Z -> World -> result (list byte) * World.

Variable g : Globals.

(** The runtime's state and the calls made so far, oldest first. *)
Definition session : Type := (World * list call)%type.

Definition handler (A : Type) : Type := session -> result A * session.

Definition ret {A} (a : A) : handler A := fun s => (Ok a, s).

Definition raise {A} (e : exn) : handler A := fun s => (Raise e, s).

Definition lift {A} (r : result A) : handler A := fun s => (r, s).

Definition hbind {A B} (m : handler A) (k : A -> handler B) : handler B :=
  fun s =>
    match m s with
    | (Ok a, s') => k a s'
    | (Raise e, s') => (Raise e, s')
    end.

(** One call on the client: it is logged and the runtime answers. *)
Definition invoke {A} (what : call) (op : World -> result A * World)
  : handler A :=
  fun s =>
    let (r, w) := op (fst s) in (r, (w, (snd s ++ [what])%list)).

(** [_=Depends(require_auth)]: the framework resolves the dependency
    before it enters the endpoint's body; an exception it raises is the
    answer and the body does not run. *)
Definition Depends {A} (dependency : result unit) (body : handler A)
  : handler A :=
  hbind (lift dependency) (fun _ => body).

Local Notation "x <<- c ;; k" := (hbind c (fun x => k))
  (at level 61, c at next level, right associativity).

Definition start_container (name : string) (request : Request.t)
  : handler response :=
  Depends (require_auth g request)
    (if negb (ALLOW_ACTIONS g) then raise Actions_disabled
     else
       c <<- invoke (containers_get name) (docker_get name) ;;
       _ <<- invoke (start c) (docker_start c) ;;
       ret ok_true).

Definition stop_container (name : string) (request : Request.t)
  : handler response :=
  Depends (require_auth g request)
    (if negb (ALLOW_ACTIONS g) then raise Actions_disabled
     else
       c <<- invoke (containers_get name) (docker_get name) ;;
       _ <<- invoke (stop c) (docker_stop c) ;;
       ret ok_true).

Definition restart_container (name : string) (request : Request.t)
  : handler response :=
  Depends (require_auth g request)
    (if negb (ALLOW_ACTIONS g) then raise Actions_disabled
     else
       c <<- invoke (containers_get name) (docker_get name) ;;
       _ <<- invoke (restart c) (docker_restart c) ;;
       ret ok_true).

(** [tail: int = 200]: the query parameter, [None] when the request
    has none. *)
Definition container_logs (name : string) (tail : option Z)
           (request : Request.t) : handler response :=
  let tail := dict_get tail 200 in
  Depends (require_auth g request)
    (c <<- invoke (containers_get name) (docker_get name) ;;
     raw <<- invoke (logs c tail) (docker_logs c tail) ;;
     text <<- lift (decode ignore raw) ;;
     ret (PlainTextResponse text)).

End Endpoints.

(* ================================================================== *)
(** * Pages and health check (lines 95-103, 129-145, 153-160) *)
(* ================================================================== *)

(** A call on the runtime client, over those of the action and logs
    endpoints: [containers.list(all=...)], [c.reload()], [ping()]. *)
Inductive query : Type :=
| on_client (c : call)
| containers_list (all : bool)
| container_reload (c : Container.t)
| ping.

(** What [TEMPLATES.TemplateResponse] is given: the template and the
    entries of its context other than the request. *)
Inductive page : Type :=
| index_html (containers : list ContainerDTO.t) (allow_actions : bool)
| container_html (container : ContainerDTO.t) (ui_href : option string)
                 (allow_actions : bool).

(** What the health check returns: [{"ok": True}], or
    [Response(status_code=..., content=...)]. *)
Inductive health : Type :=
| health_ok
| health_response (status_code : Z) (content : string).

Section Pages.

Variable World : Type.
Variable docker_list : bool -> World -> result (list Container.t) * World.
Variable docker_get : string -> World -> result Container.t * World.
Variable docker_reload : Container.t -> World -> result Container.t * World.
Variable docker_ping : World -> result bool * World.

(** [str(e)] for an exception the client raises. *)
Variable message : exn -> string.

Variable g : Globals.

(** The runtime's state and the queries made so far, oldest first. *)
Definition visit : Type := (World * list query)%type.

Definition view (A : Type) : Type := visit -> result A * visit.

Definition pure {A} (a : A) : view A := fun s => (Ok a, s).

Definition of_result {A} (r : result A) : view A := fun s => (r, s).

Definition vbind {A B} (m : view A) (k : A -> view B) : view B :=
  fun s =>
    match m s with
    | (Ok a, s') => k a s'
    | (Raise e, s') => (Raise e, s')
    end.

(** One query on the client: it is logged and the runtime answers. *)
Definition ask {A} (what : query) (op : World -> result A * World) : view A :=
  fun s =>
    let (r, w) := op (fst s) in (r, (w, snd s ++ [what])).

(** [try: body / except Exception as e: handler(e)]; what the body did to
    the runtime before it raised stays done. *)
Definition try_except_Exception {A} (body : view A) (handler : exn -> view A)
  : view A :=
  fun s =>
    match body s with
    | (Ok a, s') => (Ok a, s')
    | (Raise e, s') => handler e s'
    end.

(** [_=Depends(require_auth)], as for the other endpoints. *)
Definition Depends_view {A} (dependency : result unit) (body : view A) : view A :=
  vbind (of_result dependency) (fun _ => body).

Local Notation "x <<- c ;; k" := (vbind c (fun x => k))
  (at level 61, c at next level, right associativity).

(** [_dto(c)] against the runtime: [c.reload()] is the one query it
    makes. *)
Definition dto (c : Container.t) : view ContainerDTO.t :=
  fun s =>
    let (r, w) := docker_reload c (fst s) in
    (_dto (fun _ => r) c, (w, snd s ++ [container_reload c])).

(** [[_dto(c) for c in containers]], [items] being the list built so
    far. *)
Fixpoint for_containers (containers : list Container.t)
         (items : list ContainerDTO.t) : view (list ContainerDTO.t) :=
  match containers with
  | [] => pure items
  | c :: rest =>
      item <<- dto c ;;
      for_containers rest (items ++ [item])
  end.

Definition home (request : Request.t) : view page :=
  Depends_view (require_auth g request)
    (containers <<- ask (containers_list true) (docker_list true) ;;
     items <<- for_containers containers [] ;;
     pure (index_html items (ALLOW_ACTIONS g))).

(** Lines 134-139: the link to the container's web UI.  A [PortInfo] is
    truthy, so [if http_port] asks only whether the heuristic returned one. *)
Definition ui_link (request : Request.t) (http_port : option PortInfo.t)
  : result (option string) :=
  match http_port with
  | None => Ok None
  | Some p =>
      let default := (PortInfo.host p ++ ":" ++ str (PortInfo.port p))%string in
      host <- index (split ":" (dict_get (Headers.get (Request.headers request) "host")
                                         default)) 0 ;;
      Ok (Some ("http://" ++ host ++ ":" ++ str (PortInfo.port p))%string)
  end.

Definition container_detail (name : string) (request : Request.t) : view page :=
  Depends_view (require_auth g request)
    (c <<- ask (on_client (containers_get name)) (docker_get name) ;;
     d <<- dto c ;;
     http_port <<- of_result (_find_first_http_port g (ContainerDTO.ports d)) ;;
     ui_href <<- of_result (ui_link request http_port) ;;
     pure (container_html d ui_href (ALLOW_ACTIONS g))).

Definition healthz : view health :=
  try_except_Exception
    (_ <<- ask ping docker_ping ;; pure health_ok)
    (fun e => pure (health_response 500 (message e))).

(** The runtime answered a reload of [c] with a container from which the
    view [v] is built. *)
Definition viewed (c : Container.t) (v : ContainerDTO.t) : Prop :=
  exists w c' w',
    docker_reload c w = (Ok c', w') /\ _dto (fun _ => Ok c') c = Ok v.

End Pages.

(** The text the link's host is cut from: the Host header, or the chosen
    binding written as host:port. *)
Definition link_source (request : Request.t) (p : PortInfo.t) : string :=
  dict_get (Headers.get (Request.headers request) "host")
           (PortInfo.host p ++ ":" ++ str (PortInfo.port p))%string.

(** The binding entries of a port map, key after key. *)
Definition entries (pm : PortMap) : list PortBinding :=
  flat_map (fun item => match snd item with
                        | Some bs => bs
                        | None => []
                        end) pm.

(** The entry's host port is there and [int] accepts it. *)
Definition valid_port (b : PortBinding) : bool :=
  match Py.int (HostPort b) with
  | Ok _ => true
  | Raise _ => false
  end.

(** The characters of a string. *)
Definition chars (s : string) : list ascii := list_ascii_of_string s.

(** A string that does not begin with white space. *)
Definition clean_head (s : string) : Prop :=
  match s with
  | EmptyString => True
  | String c _ => isspace c = false
  end.

(* ================================================================== *)
(** * The specification's notions *)
(* ================================================================== *)

(** The test of the comprehension: [str(p.port) == hint]. *)
Definition matches (hint : string) (p : PortInfo.t) : bool :=
  String.eqb (str (PortInfo.port p)) hint.

(** The candidate list as the specification words it: for each preference
    entry in order, every binding of the ports sequence that matches it, in
    the order of the scan. *)
Definition candidates (hints : list string) (ports : list PortInfo.t)
  : list PortInfo.t :=
  flat_map (fun hint => filter (matches hint) ports) hints.

(** What one binding entry contributes, as the specification words it: a
    PortBinding when its host port parses as an integer, with the loopback
    address when the host IP is not given; nothing otherwise. *)
Definition binding_ports (b : PortBinding) : list PortInfo.t :=
  match Py.int (HostPort b) with
  | Ok port =>
      [ {| PortInfo.host := dict_get (HostIp b) "127.0.0.1"; PortInfo.port := port |} ]
  | Raise _ => []
  end.

(** What one internal port key contributes: its entries' bindings in
    order, nothing when its list is null or empty. *)
Definition item_ports (item : string * option (list PortBinding))
  : list PortInfo.t :=
  match snd item with
  | Some bs => flat_map binding_ports bs
  | None => []
  end.

(** The published ports of a port map: the keys' contributions in order. *)
Definition published_ports (pm : PortMap) : list PortInfo.t :=
  flat_map item_ports pm.

(** A host port that is missing or is not an integer literal. *)
Definition bad_host_port (b : PortBinding) : Prop :=
  HostPort b = None \/ exists s, HostPort b = Some s /\ int_literal s = None.

(** The image reference the inspection data gives for the container:
    [None] when [Config] or its [Image] key is absent. *)
Definition configured_image (c : Container.t) : option string :=
  Image (dict_get (Config (Container.attrs c)) {| Image := None |}).

(** The request is one the gate turns away for want of a bearer header:
    a non-empty secret is configured and the Authorization header is
    absent or fails the prefix test. *)
Definition lacks_bearer (g : Globals) (request : Request.t) : Prop :=
  truthy_opt (JWT_SECRET g) = true /\
  match Headers.get (Request.headers request) "Authorization" with
  | None => True
  | Some auth => startswith (lower auth) "bearer " = false
  end.

(* ================================================================== *)
(** * Sample data *)
(* ================================================================== *)

Definition globals (secret : option string) (actions : bool) (hints : list string)
  : Globals :=
  {| JWT_SECRET := secret; ALLOW_ACTIONS := actions; PORT_HINTS := hints |}.

Definition on_port (n : Z) : PortInfo.t :=
  {| PortInfo.host := "0.0.0.0"; PortInfo.port := n |}.

Definition with_header (value : string) : Request.t :=
  {| Request.headers := [("authorization", value)] |}.

Definition no_header : Request.t := {| Request.headers := [] |}.

Definition binding (ip port : option string) : PortBinding :=
  {| HostIp := ip; HostPort := port |}.

Definition nginx_image (tags : list string) : Image.t :=
  {| Image.tags := tags; Image.short_id := "sha256:0123456789ab" |}.

(** A container as the client presents it, with the given configured
    image reference, image object and port map. *)
Definition container (configured : option (option string)) (i : Image.t)
           (pm : PortMap) : Container.t :=
  {| Container.attrs :=
       {| State := Some {| Status := Some "running" |};
          Config := option_map (fun v => {| Image := v |}) configured;
          NetworkSettings := Some {| Ports := Some (Some pm) |} |};
     Container.short_id := "4f5e6d7c8b9a";
     Container.name := "web";
     Container.status := "running";
     Container.image := Ok i |}.

(** A runtime with no state that knows every container name and answers
    every logs call with the same bytes. *)
Definition the_container : Container.t := container None (nginx_image []) [].
Definition idle_get (name : string) (w : unit) : result Container.t * unit :=
  (Ok the_container, w).
Definition idle_action (c : Container.t) (w : unit) : result unit * unit :=
  (Ok tt, w).
Definition idle_logs (raw : list byte) (c : Container.t) (tail : Z) (w : unit)
  : result (list byte) * unit :=
  (Ok raw, w).

(** A runtime that knows no container. *)
Definition not_found : exn := DockerException "404 Client Error: Not Found".
Definition absent_get (name : string) (w : unit) : result Container.t * unit :=
  (Raise not_found, w).

(** A container publishing 80/tcp on host port 8080, and its view. *)
Definition web_container : Container.t :=
  container (Some (Some "nginx:1.27")) (nginx_image ["nginx:1.27"])
            [("80/tcp", Some [binding (Some "0.0.0.0") (Some "8080")])].

Definition web_view : ContainerDTO.t :=
  {| ContainerDTO.id := "4f5e6d7c8b9a";
     ContainerDTO.name := "web";
     ContainerDTO.image := "nginx:1.27";
     ContainerDTO.status := "running";
     ContainerDTO.state := "running";
     ContainerDTO.ports := [on_port 8080] |}.

(** A container whose image is gone from the runtime. *)
Definition broken_container : Container.t :=
  {| Container.attrs := {| State := None; Config := None; NetworkSettings := None |};
     Container.short_id := "0a1b2c3d4e5f";
     Container.name := "orphan";
     Container.status := "exited";
     Container.image := Raise (DockerException "404 Client Error: No such image") |}.

Definition web_get (name : string) (w : unit) : result Container.t * unit :=
  (Ok web_container, w).
Definition idle_list (cs : list Container.t) (all : bool) (w : unit)
  : result (list Container.t) * unit :=
  (Ok cs, w).
Definition idle_reload (c : Container.t) (w : unit) : result Container.t * unit :=
  (Ok c, w).
Definition failing_logs (c : Container.t) (tail : Z) (w : unit)
  : result (list byte) * unit :=
  (Raise (DockerException "500 Server Error"), w).
Definition down_ping (w : unit) : result bool * unit :=
  (Raise (DockerException "Connection refused"), w).
Definition explanation_of (e : exn) : string :=
  match e with
  | DockerException explanation => explanation
  | _ => ""
  end.

Definition with_host (value : string) : Request.t :=
  {| Request.headers := [("host", value)] |}.

Definition schemes_env (value : string) : environ :=
  fun key => if String.eqb key "DOCKTILES_HTTP_SCHEMES" then Some value else None.

(* ================================================================== *)
(** * The builtins at known values *)
(* ================================================================== *)

Example int_accepts :
  map (fun s => Py.int (Some s)) ["8080"; "+5"; "-5"; " 80 "; "1_000"; "00"]
  = [Ok 8080; Ok 5; Ok (-5); Ok 80; Ok 1000; Ok 0].
Proof. reflexivity. Qed.

Example int_rejects :
  map Py.int [None; Some ""; Some "http"; Some "8080/tcp"; Some "5__0"; Some "_5";
              Some "- 5"; Some "0x10"; Some "1 2"]
  = [Raise TypeError; Raise ValueError; Raise ValueError; Raise ValueError;
     Raise ValueError; Raise ValueError; Raise ValueError; Raise ValueError;
     Raise ValueError].
Proof. reflexivity. Qed.

Example str_values : map str [0; 80; -5; 65535] = ["0"; "80"; "-5"; "65535"].
Proof. reflexivity. Qed.

Example split1_values :
  map (split1 " ") ["Bearer a b"; "Bearer"; " x"; ""]
  = [["Bearer"; "a b"]; ["Bearer"]; [""; "x"]; [""]].
Proof. reflexivity. Qed.

Example lower_value : lower "BeArEr X" = "bearer x".
Proof. reflexivity. Qed.

Example default_port_hints :
  DEFAULT_PORT_HINTS = ["8080"; "3000"; "80"; "5000"; "8000"; "8888"; "9090"].
Proof. reflexivity. Qed.

(** A euro sign, a sequence cut short before an "A", and a byte that can
    start nothing. *)
Example decode_values :
  decode ignore [xe2; x82; xac; xf1; x80; x41; xff] = Ok [8364; 65]%N /\
  decode replace [xe2; x82; xac; xf1; x80; x41; xff]
    = Ok [8364; 65533; 65; 65533]%N /\
  decode strict [xe2; x82; xac; xf1; x80; x41; xff] = Raise UnicodeDecodeError.
Proof. repeat split. Qed.

(* ================================================================== *)
(** * The port heuristic *)
(* ================================================================== *)

Lemma for_ports_filter hint ports hinted :
  for_ports hint ports hinted = (hinted ++ filter (matches hint) ports)%list.
Proof.
  revert hinted.
  induction ports as [|p rest IH]; intros hinted; simpl.
  - now rewrite app_nil_r.
  - rewrite IH. unfold matches.
    destruct (String.eqb (str (PortInfo.port p)) hint); simpl.
    + now rewrite <- app_assoc.
    + reflexivity.
Qed.

Lemma for_hints_candidates hints ports hinted :
  for_hints hints ports hinted = (hinted ++ candidates hints ports)%list.
Proof.
  revert hinted.
  induction hints as [|hint rest IH]; intros hinted; simpl.
  - now rewrite app_nil_r.
  - rewrite IH, for_ports_filter. now rewrite <- app_assoc.
Qed.

(** The first element of a filtered list is the first element of the list
    that passes the test. *)
Lemma filter_first {A} (f : A -> bool) (l : list A) (x : A) (rest : list A) :
  filter f l = x :: rest ->
  exists l1 l2,
    l = (l1 ++ x :: l2)%list /\ f x = true /\ forall y, In y l1 -> f y = false.
Proof.
  induction l as [|a l IH]; simpl; [discriminate|].
  destruct (f a) eqn:Fa; intros H.
  - injection H as -> _. exists [], l. repeat split; auto. intros y [].
  - destruct (IH H) as (l1 & l2 & -> & Fx & Hl1).
    exists (a :: l1), l2. repeat split; auto.
    intros y [<-|Hy]; auto.
Qed.

(** The first element of a flattened list comes from the first piece that
    is not empty. *)
Lemma flat_map_first {A B} (f : A -> list B) (l : list A) (x : B) (rest : list B) :
  flat_map f l = x :: rest ->
  exists l1 a l2 rest',
    l = (l1 ++ a :: l2)%list /\ f a = x :: rest' /\ forall y, In y l1 -> f y = [].
Proof.
  induction l as [|a l IH]; simpl; [discriminate|].
  destruct (f a) as [|b bs] eqn:Fa; simpl; intros H.
  - destruct (IH H) as (l1 & a' & l2 & rest' & -> & Fa' & Hl1).
    exists (a :: l1), a', l2, rest'. repeat split; auto.
    intros y [<-|Hy]; auto.
  - injection H as -> _. exists [], a, l, bs. repeat split; auto. intros y [].
Qed.

Lemma filter_nil_none {A} (f : A -> bool) (l : list A) :
  filter f l = [] -> forall y, In y l -> f y = false.
Proof.
  induction l as [|a l IH]; simpl; intros H y Hy; [contradiction|].
  destruct (f a) eqn:Fa; [discriminate|].
  destruct Hy as [<-|Hy]; auto.
Qed.

Lemma matches_false hint p : matches hint p = false <-> str (PortInfo.port p) <> hint.
Proof.
  unfold matches. destruct (String.eqb_spec (str (PortInfo.port p)) hint); split;
    intros; congruence.
Qed.

Lemma matches_true hint p : matches hint p = true <-> str (PortInfo.port p) = hint.
Proof.
  unfold matches. destruct (String.eqb_spec (str (PortInfo.port p)) hint); split;
    intros; congruence.
Qed.

Lemma filter_none_nil {A} (f : A -> bool) (l : list A) :
  (forall y, In y l -> f y = false) -> filter f l = [].
Proof.
  induction l as [|a l IH]; simpl; intros H; [reflexivity|].
  rewrite (H a) by auto. apply IH. auto.
Qed.

Lemma candidates_nil hints ports :
  (forall hint q, In hint hints -> In q ports -> str (PortInfo.port q) <> hint) ->
  candidates hints ports = [].
Proof.
  intros H. unfold candidates.
  induction hints as [|hint rest IH]; simpl; [reflexivity|].
  rewrite IH by (intros; apply H; simpl; auto).
  rewrite app_nil_r. apply filter_none_nil.
  intros q Hq. apply matches_false, H; simpl; auto.
Qed.

Lemma candidates_incl hints ports p : In p (candidates hints ports) -> In p ports.
Proof.
  unfold candidates. rewrite in_flat_map. intros (hint & _ & Hp).
  now apply filter_In in Hp.
Qed.

(** What the function computes, with the loops replaced by [candidates]. *)
Lemma find_first_http_port_eq g ports :
  _find_first_http_port g ports =
  match ports with
  | [] => Ok None
  | p0 :: _ =>
      match candidates (PORT_HINTS g) ports with
      | p :: _ => Ok (Some p)
      | [] => Ok (Some p0)
      end
  end.
Proof.
  unfold _find_first_http_port.
  destruct ports as [|p0 rest]; [reflexivity|].
  cbn [truthy_list negb]. rewrite for_hints_candidates. cbn [app].
  destruct (candidates (PORT_HINTS g) (p0 :: rest)); reflexivity.
Qed.

(** C1.  For a non-empty ports sequence the candidate list the function
    builds (preference list outside, ports inside) holds, for each
    preference entry in turn, the bindings whose port number written as a
    string equals the entry; when it is not empty the function returns its
    first element, which is the first binding in port order that matches
    the first preference entry matched by any binding. *)
Theorem find_first_http_port_prefers_hints :
  forall (g : Globals) (ports : list PortInfo.t),
    ports <> [] ->
    for_hints (PORT_HINTS g) ports [] = candidates (PORT_HINTS g) ports /\
    forall p rest,
      candidates (PORT_HINTS g) ports = p :: rest ->
      _find_first_http_port g ports = Ok (Some p) /\
      exists hs1 hint hs2 ps1 ps2,
        PORT_HINTS g = (hs1 ++ hint :: hs2)%list /\
        ports = (ps1 ++ p :: ps2)%list /\
        (forall h q, In h hs1 -> In q ports -> str (PortInfo.port q) <> h) /\
        str (PortInfo.port p) = hint /\
        (forall q, In q ps1 -> str (PortInfo.port q) <> hint).
Proof.
  intros g ports Hne. split.
  - now rewrite for_hints_candidates.
  - intros p rest Hc. split.
    + rewrite find_first_http_port_eq, Hc.
      destruct ports; [contradiction|reflexivity].
    + unfold candidates in Hc.
      apply flat_map_first in Hc.
      destruct Hc as (hs1 & hint & hs2 & rest' & Hh & Hf & Hnone).
      apply filter_first in Hf.
      destruct Hf as (ps1 & ps2 & Hp & Hm & Hbefore).
      exists hs1, hint, hs2, ps1, ps2. repeat split; auto.
      * intros h q Hin Hq. apply matches_false.
        apply (filter_nil_none _ _ (Hnone h Hin)), Hq.
      * now apply matches_true.
      * intros q Hq. now apply matches_false, Hbefore.
Qed.

(** C7.  The function returns none for an empty ports sequence, and the
    first element of the ports sequence when no binding's port number
    matches any preference entry. *)
Theorem find_first_http_port_fallback :
  forall (g : Globals),
    _find_first_http_port g [] = Ok None /\
    forall p rest,
      (forall hint q, In hint (PORT_HINTS g) -> In q (p :: rest) ->
                      str (PortInfo.port q) <> hint) ->
      _find_first_http_port g (p :: rest) = Ok (Some p).
Proof.
  intros g. split; [reflexivity|].
  intros p rest H.
  rewrite find_first_http_port_eq, (candidates_nil _ _ H). reflexivity.
Qed.

(** C9.  The function never raises; it returns none exactly when the
    ports list is empty; a binding it returns is an element of the list. *)
Theorem find_first_http_port_member :
  forall (g : Globals) (ports : list PortInfo.t),
    (exists r, _find_first_http_port g ports = Ok r) /\
    (_find_first_http_port g ports = Ok None <-> ports = []) /\
    (forall p, _find_first_http_port g ports = Ok (Some p) -> In p ports).
Proof.
  intros g ports. rewrite find_first_http_port_eq.
  destruct ports as [|p0 rest].
  - repeat split; eauto; discriminate.
  - destruct (candidates (PORT_HINTS g) (p0 :: rest)) as [|c cs] eqn:Hc.
    + repeat split; eauto; try discriminate.
      intros p [= <-]. simpl; auto.
    + repeat split; eauto; try discriminate.
      intros p [= <-]. apply (candidates_incl (PORT_HINTS g)).
      rewrite Hc. simpl; auto.
Qed.

(* ================================================================== *)
(** * Port extraction *)
(* ================================================================== *)

Lemma int_raise_caught x e :
  Py.int x = Raise e -> is_TypeError_or_ValueError e = true.
Proof.
  unfold Py.int. destruct x as [s|].
  - destruct (int_literal s); [discriminate|]. now intros [= <-].
  - now intros [= <-].
Qed.

Lemma bad_host_port_raises b :
  bad_host_port b <-> exists e, Py.int (HostPort b) = Raise e.
Proof.
  unfold bad_host_port, Py.int. split.
  - intros [-> | (s & -> & ->)]; eauto.
  - intros [e H]. destruct (HostPort b) as [s|]; [right|now left].
    exists s. split; [reflexivity|].
    destruct (int_literal s); [discriminate|reflexivity].
Qed.

Lemma bad_host_port_nothing b : bad_host_port b -> binding_ports b = [].
Proof.
  intros H. apply bad_host_port_raises in H as [e H].
  unfold binding_ports. now rewrite H.
Qed.

Lemma for_bindings_flat_map bindings ports :
  for_bindings bindings ports = Ok (ports ++ flat_map binding_ports bindings)%list.
Proof.
  revert ports.
  induction bindings as [|b rest IH]; intros ports; simpl.
  - now rewrite app_nil_r.
  - unfold binding_ports at 1.
    destruct (Py.int (HostPort b)) as [port|e] eqn:Hint; simpl.
    + rewrite IH. now rewrite <- app_assoc.
    + rewrite (int_raise_caught _ _ Hint). simpl. apply IH.
Qed.

Lemma for_items_published items ports :
  for_items items ports = Ok (ports ++ published_ports items)%list.
Proof.
  revert ports.
  induction items as [|[container_port bindings] rest IH]; intros ports.
  - simpl. now rewrite app_nil_r.
  - unfold published_ports. cbn [for_items flat_map].
    fold (published_ports rest). unfold item_ports at 1. cbn [snd].
    destruct bindings as [[|b bs]|]; cbn [truthy_list negb].
    + apply IH.
    + rewrite for_bindings_flat_map. cbn [bind]. rewrite IH.
      now rewrite <- app_assoc.
    + apply IH.
Qed.

Lemma extract_published_ports_eq c :
  _extract_published_ports c = Ok (published_ports (port_map c)).
Proof. unfold _extract_published_ports. now rewrite for_items_published. Qed.

Lemma published_ports_app pm1 pm2 :
  published_ports (pm1 ++ pm2) = (published_ports pm1 ++ published_ports pm2)%list.
Proof. apply flat_map_app. Qed.

Lemma published_ports_entry pm1 k bs1 b bs2 pm2 :
  published_ports (pm1 ++ (k, Some (bs1 ++ b :: bs2)) :: pm2)%list =
  (published_ports pm1 ++ flat_map binding_ports bs1 ++ binding_ports b
     ++ flat_map binding_ports bs2 ++ published_ports pm2)%list.
Proof.
  rewrite published_ports_app. simpl. unfold item_ports at 1. simpl.
  rewrite flat_map_app. simpl. now rewrite <- !app_assoc.
Qed.

(** C5.  Extraction never fails.  A binding entry whose host port is
    missing or is not an integer is the only thing skipped on its account:
    the result is that for the port map without the entry; and every entry
    whose host port is an integer has its PortBinding in the result. *)
Theorem extract_published_ports_skips_bad_entry :
  forall (c : Container.t),
    (exists ports, _extract_published_ports c = Ok ports) /\
    (forall pm1 k bs1 b bs2 pm2,
        port_map c = (pm1 ++ (k, Some (bs1 ++ b :: bs2)) :: pm2)%list ->
        bad_host_port b ->
        _extract_published_ports c =
        for_items (pm1 ++ (k, Some (bs1 ++ bs2)) :: pm2) []) /\
    (forall k bs b port,
        In (k, Some bs) (port_map c) -> In b bs ->
        Py.int (HostPort b) = Ok port ->
        exists ports,
          _extract_published_ports c = Ok ports /\
          In {| PortInfo.host := dict_get (HostIp b) "127.0.0.1";
                PortInfo.port := port |} ports).
Proof.
  intros c. rewrite extract_published_ports_eq.
  split; [eauto|]. split.
  - intros pm1 k bs1 b bs2 pm2 -> Hbad.
    rewrite for_items_published. cbn [app]. f_equal.
    rewrite published_ports_entry, (bad_host_port_nothing _ Hbad).
    rewrite published_ports_app. simpl. unfold item_ports at 1. simpl.
    rewrite flat_map_app. now rewrite <- !app_assoc.
  - intros k bs b port Hk Hb Hint.
    eexists. split; [reflexivity|].
    unfold published_ports. apply in_flat_map.
    exists (k, Some bs). split; [exact Hk|].
    unfold item_ports. simpl. apply in_flat_map.
    exists b. split; [exact Hb|].
    unfold binding_ports. rewrite Hint. simpl. auto.
Qed.

(** C6.  Extraction returns the keys' contributions in the order of the
    port map, each the contributions of its entries in their order: a key
    whose list is null or empty adds nothing, and an entry whose host port
    is an integer adds exactly one PortBinding, with host "127.0.0.1" when
    its host IP is not given, placed after everything that comes before it
    and before everything that comes after.  Nothing is sorted or
    deduplicated: an entry reported twice is emitted twice. *)
Theorem extract_published_ports_in_order :
  forall (c : Container.t),
    _extract_published_ports c = Ok (published_ports (port_map c)) /\
    (forall pm1 k bs pm2,
        port_map c = (pm1 ++ (k, bs) :: pm2)%list ->
        bs = None \/ bs = Some [] ->
        _extract_published_ports c =
        Ok (published_ports pm1 ++ published_ports pm2)%list) /\
    (forall pm1 k bs1 b bs2 pm2 port,
        port_map c = (pm1 ++ (k, Some (bs1 ++ b :: bs2)) :: pm2)%list ->
        Py.int (HostPort b) = Ok port ->
        _extract_published_ports c =
        Ok (published_ports pm1 ++ flat_map binding_ports bs1
              ++ [ {| PortInfo.host :=
                        match HostIp b with Some ip => ip | None => "127.0.0.1" end;
                      PortInfo.port := port |} ]
              ++ flat_map binding_ports bs2 ++ published_ports pm2)%list) /\
    (forall pm1 k bs1 b bs2 pm2 port,
        port_map c = (pm1 ++ (k, Some (bs1 ++ b :: b :: bs2)) :: pm2)%list ->
        Py.int (HostPort b) = Ok port ->
        exists before after p,
          _extract_published_ports c = Ok (before ++ p :: p :: after)%list /\
          PortInfo.port p = port).
Proof.
  intros c. rewrite extract_published_ports_eq.
  split; [reflexivity|]. split; [|split].
  - intros pm1 k bs pm2 -> Hbs. f_equal.
    rewrite published_ports_app. simpl.
    destruct Hbs as [-> | ->]; reflexivity.
  - intros pm1 k bs1 b bs2 pm2 port -> Hint. f_equal.
    rewrite published_ports_entry. unfold binding_ports at 2.
    rewrite Hint. reflexivity.
  - intros pm1 k bs1 b bs2 pm2 port -> Hint.
    rewrite published_ports_entry.
    exists (published_ports pm1 ++ flat_map binding_ports bs1)%list.
    exists (flat_map binding_ports bs2 ++ published_ports pm2)%list.
    exists {| PortInfo.host := dict_get (HostIp b) "127.0.0.1";
              PortInfo.port := port |}.
    split; [|reflexivity]. f_equal. simpl.
    unfold binding_ports at 2 3. rewrite Hint. simpl.
    now rewrite <- !app_assoc.
Qed.

(* ================================================================== *)
(** * The view's image field *)
(* ================================================================== *)

Lemma image_default_eq c i :
  Container.image c = Ok i ->
  image_default c =
  Ok match Image.tags i with
     | t :: _ => t
     | [] => Image.short_id i
     end.
Proof.
  intros H. unfold image_default. rewrite H. cbn [bind].
  destruct (Image.tags i) as [|t ts]; reflexivity.
Qed.

(** C4, as the code has it.  When the reload and the image lookup succeed,
    the view is built and its image field is the image reference of the
    inspection data whenever the [Image] key is there (blank or not);
    without that key it is the first tag of the container's image, and the
    image's short id when the image has no tags.  The field is therefore
    blank only when the source chosen in that order is blank. *)
Theorem dto_image_fallback :
  forall (reload : Container.t -> result Container.t) (c0 c : Container.t)
         (i : Image.t),
    reload c0 = Ok c ->
    Container.image c = Ok i ->
    exists v,
      _dto reload c0 = Ok v /\
      (forall s, configured_image c = Some s -> ContainerDTO.image v = s) /\
      (forall t ts, configured_image c = None -> Image.tags i = t :: ts ->
                    ContainerDTO.image v = t) /\
      (configured_image c = None -> Image.tags i = [] ->
       ContainerDTO.image v = Image.short_id i) /\
      (ContainerDTO.image v = "" ->
       configured_image c = Some "" \/
       configured_image c = None /\
       (exists ts, Image.tags i = "" :: ts) \/
       configured_image c = None /\
       Image.tags i = [] /\ Image.short_id i = "").
Proof.
  intros reload c0 c i Hreload Himage.
  unfold _dto. rewrite Hreload. cbn [bind].
  rewrite (image_default_eq _ _ Himage). cbn [bind].
  rewrite extract_published_ports_eq. cbn [bind].
  eexists. split; [reflexivity|]. cbn [ContainerDTO.image].
  fold (configured_image c).
  destruct (configured_image c) as [s|]; cbn [dict_get].
  - split; [congruence|]. split; [discriminate|]. split; [discriminate|].
    intros Hblank. left. congruence.
  - split; [discriminate|].
    destruct (Image.tags i) as [|t ts].
    + split; [discriminate|]. split; [reflexivity|].
      intros Hblank. right. right. auto.
    + split; [congruence|]. split; [discriminate|].
      intros Hblank. right. left. split; [reflexivity|].
      exists ts. congruence.
Qed.

(** The default of line 74 is evaluated before [get] is called, so a
    failing image lookup fails the view even when the inspection data
    names an image. *)
Lemma dto_needs_image_lookup reload c0 c e :
  reload c0 = Ok c ->
  Container.image c = Raise e ->
  _dto reload c0 = Raise e.
Proof.
  intros Hreload Himage. unfold _dto, image_default.
  rewrite Hreload. cbn [bind]. rewrite Himage. reflexivity.
Qed.

(* ================================================================== *)
(** * The access gate *)
(* ================================================================== *)

Lemma get_any_case h :
  Headers.get h "authorization" = Headers.get h "Authorization".
Proof.
  induction h as [|[k v] rest IH]; [reflexivity|].
  cbn [Headers.get]. rewrite IH. reflexivity.
Qed.

Lemma authorization_get request :
  authorization request = Headers.get (Request.headers request) "Authorization".
Proof.
  unfold authorization, or_. rewrite get_any_case.
  now destruct (truthy_opt _).
Qed.

Lemma lower_char_space c : lower_char c = " "%char -> c = " "%char.
Proof.
  destruct c as [b0 b1 b2 b3 b4 b5 b6 b7].
  destruct b0, b1, b2, b3, b4, b5, b6, b7; vm_compute; intros H;
    first [reflexivity | discriminate H].
Qed.

Lemma lower_app a b : lower (a ++ b)%string = (lower a ++ lower b)%string.
Proof. induction a as [|c a IH]; simpl; [reflexivity|now rewrite IH]. Qed.

(** A scheme word with no space in its lower-case form ends at the first
    space of the header. *)
Lemma cut_scheme scheme token :
  cut " " (lower scheme) = None ->
  cut " " (scheme ++ String " " token)%string = Some (scheme, token).
Proof.
  induction scheme as [|c t IH]; simpl; [reflexivity|].
  destruct (Ascii.eqb_spec (lower_char c) " ") as [E|NE]; [discriminate|].
  destruct (cut " " (lower t)) as [[a b]|] eqn:P; [discriminate|].
  intros _. rewrite (IH eq_refl).
  destruct (Ascii.eqb_spec c " ") as [->|_]; [|reflexivity].
  now elim NE.
Qed.

Lemma bearer_header scheme token :
  lower scheme = "bearer" ->
  startswith (lower (scheme ++ String " " token)%string) "bearer " = true /\
  split1 " " (scheme ++ String " " token)%string = [scheme; token].
Proof.
  intros H. split.
  - rewrite lower_app, H. unfold startswith. simpl.
    now destruct (lower token).
  - unfold split1. rewrite cut_scheme; [reflexivity|].
    rewrite H. reflexivity.
Qed.

(** A header that passes the prefix test is a scheme word that reads
    "bearer" in lower case, one space, and the rest. *)
Lemma startswith_bearer auth :
  startswith (lower auth) "bearer " = true ->
  exists scheme token,
    auth = (scheme ++ String " " token)%string /\ lower scheme = "bearer".
Proof.
  unfold startswith.
  destruct auth as [|c1 [|c2 [|c3 [|c4 [|c5 [|c6 [|c7 token]]]]]]];
    cbn [lower String.prefix];
    repeat match goal with
           | |- context [ascii_dec ?a ?b] => destruct (ascii_dec a b); try discriminate
           end; try discriminate.
  intros _.
  exists (String c1 (String c2 (String c3 (String c4 (String c5 (String c6 "")))))), token.
  assert (c7 = " "%char) as -> by (apply lower_char_space; congruence).
  split; [reflexivity|]. cbn [lower]. congruence.
Qed.

(** The gate when a non-empty secret is configured. *)
Lemma require_auth_enabled g request secret :
  JWT_SECRET g = Some secret -> secret <> "" ->
  require_auth g request =
  match Headers.get (Request.headers request) "Authorization" with
  | None => Raise Missing_bearer_token
  | Some auth =>
      if startswith (lower auth) "bearer " then
        token <- index (split1 " " auth) 1 ;;
        if String.eqb token secret then Ok tt else Raise Invalid_token
      else Raise Missing_bearer_token
  end.
Proof.
  intros Hs Hne. unfold require_auth. rewrite Hs, authorization_get.
  destruct secret as [|s0 s]; [contradiction|]. cbn [truthy_opt truthy_str negb].
  destruct (Headers.get _ _) as [auth|]; [|reflexivity].
  destruct auth as [|a0 a]; [reflexivity|]. cbn [truthy_str negb orb].
  destruct (startswith _ _); cbn [negb]; [|reflexivity].
  destruct (index _ 1) as [token|e]; cbn [bind ne_secret]; [|reflexivity].
  now destruct (String.eqb token _).
Qed.

(** The gate when the secret is absent or empty. *)
Lemma require_auth_disabled g request :
  JWT_SECRET g = None \/ JWT_SECRET g = Some "" ->
  require_auth g request = Ok tt.
Proof. unfold require_auth. now intros [-> | ->]. Qed.

Lemma require_auth_bearer g request secret scheme token :
  JWT_SECRET g = Some secret -> secret <> "" ->
  Headers.get (Request.headers request) "Authorization"
    = Some (scheme ++ String " " token)%string ->
  lower scheme = "bearer" ->
  require_auth g request =
  if String.eqb token secret then Ok tt else Raise Invalid_token.
Proof.
  intros Hs Hne Hget Hscheme.
  rewrite (require_auth_enabled _ _ _ Hs Hne), Hget.
  destruct (bearer_header scheme token Hscheme) as [-> ->].
  reflexivity.
Qed.

(** C3, as the code has it.  With the secret absent or empty the gate
    admits every request.  With a non-empty secret: a request without an
    Authorization header is rejected with 401; a request whose header
    carries the bearer scheme and a token different from the secret is
    rejected with 403; a request whose bearer token is the secret is
    admitted. *)
Theorem require_auth_gate :
  forall (g : Globals) (request : Request.t),
    (JWT_SECRET g = None \/ JWT_SECRET g = Some "" ->
     require_auth g request = Ok tt) /\
    (forall secret,
        JWT_SECRET g = Some secret -> secret <> "" ->
        (Headers.get (Request.headers request) "Authorization" = None ->
         require_auth g request =
         Raise (HTTPException 401 "Missing bearer token")) /\
        (forall scheme token,
            Headers.get (Request.headers request) "Authorization"
              = Some (scheme ++ String " " token)%string ->
            lower scheme = "bearer" ->
            (token <> secret ->
             require_auth g request = Raise (HTTPException 403 "Invalid token")) /\
            (token = secret -> require_auth g request = Ok tt))).
Proof.
  intros g request. split; [apply require_auth_disabled|].
  intros secret Hs Hne. split.
  - intros Hget. rewrite (require_auth_enabled _ _ _ Hs Hne), Hget. reflexivity.
  - intros scheme token Hget Hscheme.
    rewrite (require_auth_bearer _ _ _ _ _ Hs Hne Hget Hscheme).
    destruct (String.eqb_spec token secret); split; intros;
      first [reflexivity | congruence].
Qed.

(** C10, as the code has it.  With a non-empty secret and an Authorization
    header present: a header that passes the case-insensitive "bearer "
    prefix test splits at its first space into a scheme word and the
    token, which is all that follows, and is admitted exactly when the
    token is the secret; a header that fails the test is rejected with
    401; "bearer <secret>" and "BEARER <secret>" are admitted. *)
Theorem require_auth_bearer_prefix :
  forall (g : Globals) (request : Request.t) (secret auth : string),
    JWT_SECRET g = Some secret -> secret <> "" ->
    Headers.get (Request.headers request) "Authorization" = Some auth ->
    (startswith (lower auth) "bearer " = true ->
     exists scheme token,
       auth = (scheme ++ String " " token)%string /\
       lower scheme = "bearer" /\
       cut " " auth = Some (scheme, token) /\
       require_auth g request =
       if String.eqb token secret then Ok tt
       else Raise (HTTPException 403 "Invalid token")) /\
    (startswith (lower auth) "bearer " = false ->
     require_auth g request = Raise (HTTPException 401 "Missing bearer token")) /\
    (auth = ("bearer " ++ secret)%string \/ auth = ("BEARER " ++ secret)%string ->
     require_auth g request = Ok tt).
Proof.
  intros g request secret auth Hs Hne Hget. split; [|split].
  - intros Hpre.
    destruct (startswith_bearer _ Hpre) as (scheme & token & -> & Hscheme).
    exists scheme, token. repeat split; auto.
    + apply cut_scheme. rewrite Hscheme. reflexivity.
    + apply (require_auth_bearer _ _ _ _ _ Hs Hne Hget Hscheme).
  - intros Hpre.
    rewrite (require_auth_enabled _ _ _ Hs Hne), Hget, Hpre. reflexivity.
  - intros Hauth.
    assert (H : exists scheme, auth = (scheme ++ String " " secret)%string
                               /\ lower scheme = "bearer").
    { destruct Hauth as [-> | ->]; [exists "bearer"|exists "BEARER"];
        split; reflexivity. }
    destruct H as (scheme & -> & Hscheme).
    rewrite (require_auth_bearer _ _ _ _ _ Hs Hne Hget Hscheme).
    now rewrite String.eqb_refl.
Qed.

(** With a non-empty secret the gate has three outcomes, told apart by
    the header alone. *)
Lemma require_auth_outcome g request secret :
  JWT_SECRET g = Some secret -> secret <> "" ->
  match Headers.get (Request.headers request) "Authorization" with
  | None => require_auth g request = Raise Missing_bearer_token
  | Some auth =>
      if startswith (lower auth) "bearer "
      then require_auth g request = Ok tt \/
           require_auth g request = Raise Invalid_token
      else require_auth g request = Raise Missing_bearer_token
  end.
Proof.
  intros Hs Hne.
  destruct (Headers.get _ _) as [auth|] eqn:Hget.
  - destruct (startswith (lower auth) "bearer ") eqn:Hpre.
    + destruct (startswith_bearer _ Hpre) as (scheme & token & -> & Hscheme).
      rewrite (require_auth_bearer _ _ _ _ _ Hs Hne Hget Hscheme).
      destruct (String.eqb token secret); auto.
    + rewrite (require_auth_enabled _ _ _ Hs Hne), Hget, Hpre. reflexivity.
  - rewrite (require_auth_enabled _ _ _ Hs Hne), Hget. reflexivity.
Qed.

Lemma require_auth_cases g request :
  (require_auth g request = Ok tt \/
   require_auth g request = Raise Invalid_token \/
   require_auth g request = Raise Missing_bearer_token) /\
  (require_auth g request = Raise Missing_bearer_token <-> lacks_bearer g request).
Proof.
  unfold lacks_bearer.
  destruct (JWT_SECRET g) as [[|c0 s]|] eqn:Hs.
  - rewrite require_auth_disabled by auto. cbn.
    split; [auto|]. split; [discriminate|]. now intros [? _].
  - assert (Hne : String c0 s <> "") by discriminate.
    pose proof (require_auth_outcome g request _ Hs Hne) as H.
    cbn [truthy_opt truthy_str].
    destruct (Headers.get _ _) as [auth|].
    + destruct (startswith (lower auth) "bearer ").
      * split; [tauto|].
        split; [|now intros [_ ?]].
        destruct H as [-> | ->]; discriminate.
      * rewrite H. split; [auto|]. split; auto.
    + rewrite H. split; [auto|]. split; auto.
  - rewrite require_auth_disabled by auto. cbn.
    split; [auto|]. split; [discriminate|]. now intros [? _].
Qed.

Section EndpointProperties.

Variable World : Type.
Variable docker_get : string -> World -> result Container.t * World.
Variable docker_start docker_stop docker_restart :
  Container.t -> World -> result unit * World.
Variable docker_logs : Container.t -> Z -> World -> result (list byte) * World.
Variable g : Globals.

Lemma Depends_eq {A} (dependency : result unit) (body : handler World A) s :
  Depends World dependency body s =
  match dependency with
  | Ok _ => body s
  | Raise e => (Raise e, s)
  end.
Proof. unfold Depends, hbind, lift. now destruct dependency. Qed.

(** C2, as the code has it.  With the actions flag off, each of the three
    action endpoints answers with an HTTP error and leaves the session as
    it found it: the runtime's state is untouched and no call is logged.
    The gate runs first, so the error is the gate's when the gate rejects:
    401 exactly when a non-empty secret is configured and the request has
    no bearer header, 403 in every other case. *)
Theorem action_endpoints_disabled :
  forall (name : string) (request : Request.t) (s : session World),
    ALLOW_ACTIONS g = false ->
    exists code detail,
      start_container World docker_get docker_start g name request s
        = (Raise (HTTPException code detail), s) /\
      stop_container World docker_get docker_stop g name request s
        = (Raise (HTTPException code detail), s) /\
      restart_container World docker_get docker_restart g name request s
        = (Raise (HTTPException code detail), s) /\
      (code = 401 /\ lacks_bearer g request \/
       code = 403 /\ ~ lacks_bearer g request).
Proof.
  intros name request s Hoff.
  unfold start_container, stop_container, restart_container.
  rewrite !Depends_eq, Hoff. cbn [negb]. unfold raise.
  destruct (require_auth_cases g request) as [Hcases H401].
  destruct Hcases as [H | [H | H]]; rewrite H.
  - exists 403, "Actions disabled". repeat split. right. split; [reflexivity|].
    intros L. apply H401 in L. congruence.
  - exists 403, "Invalid token". repeat split. right. split; [reflexivity|].
    intros L. apply H401 in L. rewrite H in L. discriminate.
  - exists 401, "Missing bearer token". repeat split. left. split; [reflexivity|].
    now apply H401.
Qed.

Lemma handle_ignore_total evs : exists text, handle ignore evs = Ok text.
Proof.
  induction evs as [|[cp|] rest [text IH]]; simpl; eauto.
  rewrite IH. simpl. eauto.
Qed.

(** C8.  A logs request without a tail parameter is served as one with
    tail 200.  Decoding with [errors="ignore"] returns a text for every
    byte string.  So when the gate admits the request and the runtime
    returns the container and its log bytes, the endpoint answers with a
    plain-text body, having asked the runtime for [tail] lines, 200 when
    the request names none. *)
Theorem container_logs_plain_text :
  forall (name : string) (request : Request.t) (s : session World),
    container_logs World docker_get docker_logs g name None request s
      = container_logs World docker_get docker_logs g name (Some 200) request s /\
    (forall raw, exists text, decode ignore raw = Ok text) /\
    (forall tail c w1 raw w2,
        require_auth g request = Ok tt ->
        docker_get name (fst s) = (Ok c, w1) ->
        docker_logs c (dict_get tail 200) w1 = (Ok raw, w2) ->
        exists text,
          decode ignore raw = Ok text /\
          container_logs World docker_get docker_logs g name tail request s
            = (Ok (PlainTextResponse text),
               (w2, snd s ++ [containers_get name; logs c (dict_get tail 200)]))).
Proof.
  intros name request s. split; [reflexivity|]. split.
  - intros raw. apply handle_ignore_total.
  - intros tail c w1 raw w2 Hauth Hget Hlogs.
    destruct (handle_ignore_total (scan Start raw)) as [text Htext].
    exists text. split; [exact Htext|].
    unfold container_logs. rewrite Depends_eq, Hauth.
    unfold hbind, invoke, lift, ret. rewrite Hget. cbn [fst snd].
    rewrite Hlogs. unfold decode. rewrite Htext.
    now rewrite <- app_assoc.
Qed.

End EndpointProperties.

(* ================================================================== *)
(** * The properties at concrete inputs *)
(* ================================================================== *)

Lemma find_first_http_port_prefers_hints_witness :
  [on_port 8000; on_port 3000] <> [] /\
  candidates ["8080"; "3000"] [on_port 8000; on_port 3000] = [on_port 3000] /\
  _find_first_http_port (globals None true ["8080"; "3000"])
                        [on_port 8000; on_port 3000]
    = Ok (Some (on_port 3000)).
Proof.
  assert (Hne : [on_port 8000; on_port 3000] <> []) by discriminate.
  assert (Hc : candidates (PORT_HINTS (globals None true ["8080"; "3000"]))
                          [on_port 8000; on_port 3000] = [on_port 3000])
    by reflexivity.
  split; [exact Hne|]. split; [exact Hc|].
  exact (proj1 (proj2 (find_first_http_port_prefers_hints
                         (globals None true ["8080"; "3000"])
                         [on_port 8000; on_port 3000] Hne) _ _ Hc)).
Defined.

Lemma find_first_http_port_fallback_witness :
  _find_first_http_port (globals None true DEFAULT_PORT_HINTS)
                        [on_port 22; on_port 6379]
    = Ok (Some (on_port 22)).
Proof.
  apply (proj2 (find_first_http_port_fallback (globals None true DEFAULT_PORT_HINTS))).
  intros hint q Hh Hq. simpl in Hh, Hq.
  repeat match goal with
         | H : _ \/ _ |- _ => destruct H
         | H : False |- _ => destruct H
         end; subst; vm_compute; discriminate.
Defined.

Lemma find_first_http_port_member_witness :
  In (on_port 3000) [on_port 8000; on_port 3000] /\
  _find_first_http_port (globals None true ["8080"; "3000"]) [] = Ok None.
Proof.
  split.
  - apply (proj2 (proj2 (find_first_http_port_member
                           (globals None true ["8080"; "3000"])
                           [on_port 8000; on_port 3000]))).
    reflexivity.
  - apply (proj2 (proj1 (proj2 (find_first_http_port_member
                                  (globals None true ["8080"; "3000"]) [])))).
    reflexivity.
Defined.

Lemma extract_published_ports_skips_bad_entry_witness :
  _extract_published_ports
    (container None (nginx_image [])
       [("80/tcp", Some [binding (Some "0.0.0.0") (Some "8080");
                         binding (Some "0.0.0.0") (Some "http");
                         binding None (Some "8081")]);
        ("443/tcp", Some [binding None None])])
  = Ok [on_port 8080; {| PortInfo.host := "127.0.0.1"; PortInfo.port := 8081 |}] /\
  exists ports,
    _extract_published_ports
      (container None (nginx_image [])
         [("80/tcp", Some [binding (Some "0.0.0.0") (Some "http");
                           binding None (Some "8081")])])
    = Ok ports /\
    In {| PortInfo.host := "127.0.0.1"; PortInfo.port := 8081 |} ports.
Proof.
  split.
  - rewrite (proj1 (proj2 (extract_published_ports_skips_bad_entry _))
               [] "80/tcp" [binding (Some "0.0.0.0") (Some "8080")]
               (binding (Some "0.0.0.0") (Some "http"))
               [binding None (Some "8081")]
               [("443/tcp", Some [binding None None])]).
    + reflexivity.
    + reflexivity.
    + right. exists "http". split; reflexivity.
  - apply (proj2 (proj2 (extract_published_ports_skips_bad_entry
                           (container None (nginx_image [])
                              [("80/tcp", Some [binding (Some "0.0.0.0") (Some "http");
                                                binding None (Some "8081")])])))
             "80/tcp"
             [binding (Some "0.0.0.0") (Some "http"); binding None (Some "8081")]
             (binding None (Some "8081")) 8081).
    + simpl. left. reflexivity.
    + simpl. right. left. reflexivity.
    + reflexivity.
Defined.

Lemma extract_published_ports_in_order_witness :
  _extract_published_ports
    (container None (nginx_image [])
       [("9090/tcp", None);
        ("80/tcp", Some [binding (Some "0.0.0.0") (Some "8080");
                         binding None (Some "8080");
                         binding None (Some "8080")]);
        ("22/tcp", Some [binding (Some "0.0.0.0") (Some "22")])])
  = Ok [on_port 8080;
        {| PortInfo.host := "127.0.0.1"; PortInfo.port := 8080 |};
        {| PortInfo.host := "127.0.0.1"; PortInfo.port := 8080 |};
        on_port 22].
Proof.
  rewrite (proj1 (proj2 (proj2 (extract_published_ports_in_order _)))
             [("9090/tcp", None)] "80/tcp"
             [binding (Some "0.0.0.0") (Some "8080")]
             (binding None (Some "8080"))
             [binding None (Some "8080")]
             [("22/tcp", Some [binding (Some "0.0.0.0") (Some "22")])]
             8080).
  - reflexivity.
  - reflexivity.
  - reflexivity.
Defined.

Lemma dto_image_fallback_witness :
  exists v,
    _dto (fun c => Ok c) (container None (nginx_image ["nginx:latest"]) []) = Ok v /\
    ContainerDTO.image v = "nginx:latest".
Proof.
  destruct (dto_image_fallback (fun c => Ok c)
              (container None (nginx_image ["nginx:latest"]) [])
              (container None (nginx_image ["nginx:latest"]) [])
              (nginx_image ["nginx:latest"]) eq_refl eq_refl)
    as (v & Hv & _ & Htag & _).
  exists v. split; [exact Hv|].
  apply (Htag "nginx:latest" []); reflexivity.
Defined.

Lemma require_auth_gate_witness :
  require_auth (globals (Some "s3cret") true []) (with_header "Bearer s3cret") = Ok tt /\
  require_auth (globals (Some "s3cret") true []) (with_header "Bearer wrong")
    = Raise (HTTPException 403 "Invalid token") /\
  require_auth (globals (Some "s3cret") true []) no_header
    = Raise (HTTPException 401 "Missing bearer token") /\
  require_auth (globals None true []) no_header = Ok tt.
Proof.
  assert (Hne : "s3cret" <> "") by discriminate.
  split; [|split; [|split]].
  - apply (proj2 (proj2 (proj2 (require_auth_gate (globals (Some "s3cret") true [])
                                  (with_header "Bearer s3cret"))
                           "s3cret" eq_refl Hne)
                    "Bearer" "s3cret" eq_refl eq_refl)).
    reflexivity.
  - apply (proj1 (proj2 (proj2 (require_auth_gate (globals (Some "s3cret") true [])
                                  (with_header "Bearer wrong"))
                           "s3cret" eq_refl Hne)
                    "Bearer" "wrong" eq_refl eq_refl)).
    discriminate.
  - apply (proj1 (proj2 (require_auth_gate (globals (Some "s3cret") true []) no_header)
                    "s3cret" eq_refl Hne)).
    reflexivity.
  - apply (proj1 (require_auth_gate (globals None true []) no_header)).
    left. reflexivity.
Defined.

Lemma require_auth_bearer_prefix_witness :
  require_auth (globals (Some "s3cret") true []) (with_header "BEARER s3cret") = Ok tt /\
  require_auth (globals (Some "s3cret") true []) (with_header "Basic dXNlcjpwdw==")
    = Raise (HTTPException 401 "Missing bearer token") /\
  exists scheme token,
    "bearer a b" = (scheme ++ String " " token)%string /\
    require_auth (globals (Some "s3cret") true []) (with_header "bearer a b")
      = if String.eqb token "s3cret" then Ok tt
        else Raise (HTTPException 403 "Invalid token").
Proof.
  assert (Hne : "s3cret" <> "") by discriminate.
  split; [|split].
  - apply (proj2 (proj2 (require_auth_bearer_prefix
                           (globals (Some "s3cret") true [])
                           (with_header "BEARER s3cret") "s3cret" "BEARER s3cret"
                           eq_refl Hne eq_refl))).
    right. reflexivity.
  - apply (proj1 (proj2 (require_auth_bearer_prefix
                           (globals (Some "s3cret") true [])
                           (with_header "Basic dXNlcjpwdw==") "s3cret"
                           "Basic dXNlcjpwdw==" eq_refl Hne eq_refl))).
    reflexivity.
  - destruct (proj1 (require_auth_bearer_prefix
                       (globals (Some "s3cret") true [])
                       (with_header "bearer a b") "s3cret" "bearer a b"
                       eq_refl Hne eq_refl) eq_refl)
      as (scheme & token & Hsplit & _ & _ & Hauth).
    exists scheme, token. split; assumption.
Defined.

Lemma action_endpoints_disabled_witness :
  exists code detail,
    start_container unit idle_get idle_action (globals (Some "s3cret") false [])
                    "web" (with_header "Bearer s3cret") (tt, [])
      = (Raise (HTTPException code detail), (tt, [])) /\
    stop_container unit idle_get idle_action (globals (Some "s3cret") false [])
                   "web" (with_header "Bearer s3cret") (tt, [])
      = (Raise (HTTPException code detail), (tt, [])) /\
    restart_container unit idle_get idle_action (globals (Some "s3cret") false [])
                      "web" (with_header "Bearer s3cret") (tt, [])
      = (Raise (HTTPException code detail), (tt, [])) /\
    (code = 401 /\ lacks_bearer (globals (Some "s3cret") false [])
                                (with_header "Bearer s3cret") \/
     code = 403 /\ ~ lacks_bearer (globals (Some "s3cret") false [])
                                  (with_header "Bearer s3cret")).
Proof.
  apply (action_endpoints_disabled unit idle_get idle_action idle_action idle_action
           (globals (Some "s3cret") false []) "web" (with_header "Bearer s3cret")
           (tt, [])).
  reflexivity.
Defined.

Lemma container_logs_plain_text_witness :
  exists text,
    decode ignore [x68; x69; xff; x0a] = Ok text /\
    container_logs unit idle_get (idle_logs [x68; x69; xff; x0a])
                   (globals None true []) "web" None no_header (tt, [])
      = (Ok (PlainTextResponse text),
         (tt, [containers_get "web"; logs the_container 200])).
Proof.
  apply (proj2 (proj2 (container_logs_plain_text unit idle_get
                         (idle_logs [x68; x69; xff; x0a])
                         (globals None true []) "web" no_header (tt, [])))
           None the_container tt [x68; x69; xff; x0a] tt);
    reflexivity.
Defined.

(* ================================================================== *)
(** * Where the code departs from the wording *)
(* ================================================================== *)

(** C2 as worded fails: with the actions flag off and a secret configured,
    a start request without an Authorization header is answered 401 by
    the gate, not 403. *)
Lemma action_endpoints_disabled_counterexample :
  ALLOW_ACTIONS (globals (Some "s3cret") false []) = false /\
  start_container unit idle_get idle_action (globals (Some "s3cret") false [])
                  "web" no_header (tt, [])
    = (Raise (HTTPException 401 "Missing bearer token"), (tt, [])).
Proof. split; reflexivity. Qed.

(** C3 as worded fails twice: a secret set to the empty string leaves the
    gate open to a request without a header, and a header that is present
    with a value other than the secret but without the bearer scheme is
    answered 401, not 403. *)
Lemma require_auth_gate_counterexample :
  require_auth (globals (Some "") true []) no_header = Ok tt /\
  require_auth (globals (Some "s3cret") true []) (with_header "Basic wrong")
    = Raise (HTTPException 401 "Missing bearer token") /\
  require_auth (globals (Some "s3cret") true []) (with_header "wrong")
    = Raise (HTTPException 401 "Missing bearer token").
Proof. repeat split; reflexivity. Qed.

(** C4 as worded fails: a container whose inspection data carries a blank
    image reference gets a view with a blank image field, although its
    image has a tag. *)
Lemma dto_image_fallback_counterexample :
  exists v,
    _dto (fun c => Ok c)
         (container (Some (Some "")) (nginx_image ["nginx:latest"]) []) = Ok v /\
    ContainerDTO.image v = "".
Proof. eexists. split; reflexivity. Qed.

(** C10 as worded fails: with the secret set to the empty string a Basic
    header is admitted, not answered 401. *)
Lemma require_auth_bearer_prefix_counterexample :
  JWT_SECRET (globals (Some "") true []) = Some "" /\
  require_auth (globals (Some "") true []) (with_header "Basic dXNlcjpwdw==") = Ok tt.
Proof. split; reflexivity. Qed.

(* ================================================================== *)
(** * Further properties of the gate and the runtime endpoints *)
(* ================================================================== *)

(** X1.  The gate has three outcomes and no other: it admits, or raises
    401 "Missing bearer token", or raises 403 "Invalid token".  In
    particular the subscript of line 28 never raises. *)
Theorem require_auth_outcomes :
  forall (g : Globals) (request : Request.t),
    require_auth g request = Ok tt \/
    require_auth g request = Raise (HTTPException 401 "Missing bearer token") \/
    require_auth g request = Raise (HTTPException 403 "Invalid token").
Proof.
  intros g request.
  destruct (proj1 (require_auth_cases g request)) as [H | [H | H]]; auto.
Qed.

Section EndpointCalls.

Variable World : Type.
Variable docker_get : string -> World -> result Container.t * World.
Variable docker_start docker_stop docker_restart :
  Container.t -> World -> result unit * World.
Variable docker_logs : Container.t -> Z -> World -> result (list byte) * World.
Variable g : Globals.

(** X2.  A request the gate rejects gets the gate's error from each of the
    four endpoints that reach the runtime, whatever the actions flag, and
    the session is left as it was: no call is made. *)
Theorem gate_rejection_makes_no_call :
  forall (name : string) (tail : option Z) (request : Request.t)
         (s : session World) (e : exn),
    require_auth g request = Raise e ->
    start_container World docker_get docker_start g name request s = (Raise e, s) /\
    stop_container World docker_get docker_stop g name request s = (Raise e, s) /\
    restart_container World docker_get docker_restart g name request s
      = (Raise e, s) /\
    container_logs World docker_get docker_logs g name tail request s
      = (Raise e, s).
Proof.
  intros name tail request s e H.
  unfold start_container, stop_container, restart_container, container_logs.
  rewrite !Depends_eq, H. auto.
Qed.

(** An action endpoint's body once the gate and the flag let it through:
    look the container up, then issue the one operation. *)
Lemma action_body_eq (what : Container.t -> call)
      (op : Container.t -> World -> result unit * World) name s :
  hbind World (invoke World (containers_get name) (docker_get name))
        (fun c => hbind World (invoke World (what c) (op c))
                        (fun _ => ret World ok_true)) s =
  match docker_get name (fst s) with
  | (Ok c, w1) =>
      match op c w1 with
      | (Ok _, w2) => (Ok ok_true, (w2, snd s ++ [containers_get name; what c]))
      | (Raise e, w2) => (Raise e, (w2, snd s ++ [containers_get name; what c]))
      end
  | (Raise e, w1) => (Raise e, (w1, snd s ++ [containers_get name]))
  end.
Proof.
  unfold hbind, invoke, ret.
  destruct (docker_get name (fst s)) as [[c|e] w1]; [|reflexivity].
  cbn [fst snd]. destruct (op c w1) as [[u|e] w2]; now rewrite <- app_assoc.
Qed.

(** X3.  With the actions flag on and the gate passed, each action
    endpoint looks the container up once and, only when that succeeds,
    issues its own operation once on the container found: a failed lookup
    is the answer and no operation is issued; otherwise the operation's
    error is the answer, or [{"ok": True}]. *)
Theorem action_endpoints_enabled :
  forall (name : string) (request : Request.t) (s : session World),
    ALLOW_ACTIONS g = true ->
    require_auth g request = Ok tt ->
    (forall e w1,
        docker_get name (fst s) = (Raise e, w1) ->
        let s1 := (w1, snd s ++ [containers_get name]) in
        start_container World docker_get docker_start g name request s
          = (Raise e, s1) /\
        stop_container World docker_get docker_stop g name request s
          = (Raise e, s1) /\
        restart_container World docker_get docker_restart g name request s
          = (Raise e, s1)) /\
    (forall c w1,
        docker_get name (fst s) = (Ok c, w1) ->
        (forall r w2,
            docker_start c w1 = (r, w2) ->
            start_container World docker_get docker_start g name request s
              = (r' <- r ;; Ok ok_true,
                 (w2, snd s ++ [containers_get name; start c]))) /\
        (forall r w2,
            docker_stop c w1 = (r, w2) ->
            stop_container World docker_get docker_stop g name request s
              = (r' <- r ;; Ok ok_true,
                 (w2, snd s ++ [containers_get name; stop c]))) /\
        (forall r w2,
            docker_restart c w1 = (r, w2) ->
            restart_container World docker_get docker_restart g name request s
              = (r' <- r ;; Ok ok_true,
                 (w2, snd s ++ [containers_get name; restart c])))).
Proof.
  intros name request s Hon Hauth.
  unfold start_container, stop_container, restart_container.
  rewrite !Depends_eq, Hauth, Hon. cbn [negb].
  rewrite !action_body_eq. split.
  - intros e w1 ->. cbn. auto.
  - intros c w1 ->. repeat split; intros r w2 ->; now destruct r.
Qed.

(** X4.  The logs endpoint, once the gate is passed, looks the container
    up once and asks for its logs only when that succeeds; a failed lookup
    or a failed logs call is the answer, and decoding adds no failure of
    its own. *)
Theorem container_logs_failures :
  forall (name : string) (tail : option Z) (request : Request.t)
         (s : session World),
    require_auth g request = Ok tt ->
    (forall e w1,
        docker_get name (fst s) = (Raise e, w1) ->
        container_logs World docker_get docker_logs g name tail request s
          = (Raise e, (w1, snd s ++ [containers_get name]))) /\
    (forall c w1 e w2,
        docker_get name (fst s) = (Ok c, w1) ->
        docker_logs c (dict_get tail 200) w1 = (Raise e, w2) ->
        container_logs World docker_get docker_logs g name tail request s
          = (Raise e,
             (w2, snd s ++ [containers_get name; logs c (dict_get tail 200)]))) /\
    (forall e s',
        container_logs World docker_get docker_logs g name tail request s
          = (Raise e, s') ->
        (exists w1, docker_get name (fst s) = (Raise e, w1)) \/
        (exists c w1 w2,
            docker_get name (fst s) = (Ok c, w1) /\
            docker_logs c (dict_get tail 200) w1 = (Raise e, w2))).
Proof.
  intros name tail request s Hauth.
  unfold container_logs. rewrite Depends_eq, Hauth.
  unfold hbind, invoke, lift, ret.
  destruct (docker_get name (fst s)) as [[c|e0] w1]; cbn [fst snd].
  - destruct (docker_logs c (dict_get tail 200) w1) as [[raw|e1] w2] eqn:Hlogs.
    + destruct (handle_ignore_total (scan Start raw)) as [text Htext].
      unfold decode. rewrite Htext.
      split; [discriminate|]. split; [|discriminate].
      intros c' w1' e w2' [= <- <-] H. congruence.
    + split; [discriminate|]. split.
      * intros c' w1' e w2' [= <- <-] H.
        rewrite Hlogs in H. injection H as <- <-.
        now rewrite <- app_assoc.
      * intros e s' [= <- _]. right. exists c, w1, w2. split; [reflexivity|exact Hlogs].
  - split; [now intros e w1' [= <- <-]|]. split; [discriminate|].
    intros e s' [= <- _]. left. now exists w1.
Qed.

Lemma handle_strict_ignore evs text :
  handle strict evs = Ok text -> handle ignore evs = Ok text.
Proof.
  revert text.
  induction evs as [|[cp|] rest IH]; intros text; simpl; auto; [|discriminate].
  destruct (handle strict rest) as [t|e]; [|discriminate].
  intros [= <-]. now rewrite (IH t eq_refl).
Qed.

Lemma scan_ascii raw :
  Forall (fun b => (Byte.to_N b < 128)%N) raw ->
  scan Start raw = map (fun b => Char (Byte.to_N b)) raw.
Proof.
  induction 1 as [|b raw Hb _ IH]; [reflexivity|].
  cbn [scan step map]. unfold lead.
  apply N.ltb_lt in Hb. rewrite Hb. cbn [app]. now rewrite IH.
Qed.

Lemma handle_chars h cps : handle h (map Char cps) = Ok cps.
Proof.
  induction cps as [|cp rest IH]; [reflexivity|].
  cbn [map handle]. now rewrite IH.
Qed.

Lemma decode_ascii h raw :
  Forall (fun b => (Byte.to_N b < 128)%N) raw ->
  decode h raw = Ok (map Byte.to_N raw).
Proof.
  intros H. unfold decode. rewrite (scan_ascii _ H).
  rewrite <- (map_map Byte.to_N Char). apply handle_chars.
Qed.

(** The logs endpoint when nothing fails before the decoding. *)
Lemma container_logs_run name tail request s c w1 raw w2 :
  require_auth g request = Ok tt ->
  docker_get name (fst s) = (Ok c, w1) ->
  docker_logs c (dict_get tail 200) w1 = (Ok raw, w2) ->
  container_logs World docker_get docker_logs g name tail request s
  = (text <- decode ignore raw ;; Ok (PlainTextResponse text),
     (w2, snd s ++ [containers_get name; logs c (dict_get tail 200)])).
Proof.
  intros Hauth Hget Hlogs.
  unfold container_logs. rewrite Depends_eq, Hauth.
  unfold hbind, invoke, lift, ret. rewrite Hget. cbn [fst snd]. rewrite Hlogs.
  rewrite <- app_assoc. now destruct (decode ignore raw).
Qed.

(** X5.  Log bytes that are well-formed UTF-8 come back whole: when strict
    decoding of the runtime's bytes succeeds, the body of the logs
    response is that decoding, so [errors="ignore"] drops nothing from
    well-formed logs. *)
Theorem container_logs_valid_utf8 :
  forall (name : string) (tail : option Z) (request : Request.t)
         (s : session World) c w1 raw w2 text,
    require_auth g request = Ok tt ->
    docker_get name (fst s) = (Ok c, w1) ->
    docker_logs c (dict_get tail 200) w1 = (Ok raw, w2) ->
    decode strict raw = Ok text ->
    container_logs World docker_get docker_logs g name tail request s
    = (Ok (PlainTextResponse text),
       (w2, snd s ++ [containers_get name; logs c (dict_get tail 200)])).
Proof.
  intros name tail request s c w1 raw w2 text Hauth Hget Hlogs Hstrict.
  rewrite (container_logs_run _ _ _ _ _ _ _ _ Hauth Hget Hlogs).
  unfold decode in *. now rewrite (handle_strict_ignore _ _ Hstrict).
Qed.

(** X6.  Log bytes that are all ASCII come back byte for byte: the body
    of the logs response has one code point per byte, of the same
    number and in the same order. *)
Theorem container_logs_ascii :
  forall (name : string) (tail : option Z) (request : Request.t)
         (s : session World) c w1 raw w2,
    require_auth g request = Ok tt ->
    docker_get name (fst s) = (Ok c, w1) ->
    docker_logs c (dict_get tail 200) w1 = (Ok raw, w2) ->
    Forall (fun b => (Byte.to_N b < 128)%N) raw ->
    container_logs World docker_get docker_logs g name tail request s
    = (Ok (PlainTextResponse (map Byte.to_N raw)),
       (w2, snd s ++ [containers_get name; logs c (dict_get tail 200)])).
Proof.
  intros name tail request s c w1 raw w2 Hauth Hget Hlogs Hascii.
  rewrite (container_logs_run _ _ _ _ _ _ _ _ Hauth Hget Hlogs).
  now rewrite (decode_ascii _ _ Hascii).
Qed.

End EndpointCalls.

(* ================================================================== *)
(** * Properties of the pages and of the health check *)
(* ================================================================== *)

(** The text before the first separator. *)
Lemma split_head sep s :
  exists h rest,
    split sep s = h :: rest /\
    ~ In sep (list_ascii_of_string h) /\
    (s = h \/ exists t, s = (h ++ String sep t)%string).
Proof.
  induction s as [|c s (h & rest & Hs & Hh & Hshape)]; cbn [split].
  - exists "", []. repeat split; auto.
  - destruct (Ascii.eqb_spec c sep) as [->|Hc].
    + exists "", (split sep s). repeat split; auto.
      right. now exists s.
    + rewrite Hs. exists (String c h), rest. repeat split.
      * cbn. intros [E|E]; [now elim Hc|now elim Hh].
      * destruct Hshape as [->|[t ->]]; [now left|right; now exists t].
Qed.

Lemma split_head_app sep a t :
  ~ In sep (list_ascii_of_string a) ->
  exists rest, split sep (a ++ String sep t)%string = a :: rest.
Proof.
  induction a as [|c a IH]; cbn [split append list_ascii_of_string]; intros H.
  - rewrite Ascii.eqb_refl. eauto.
  - destruct (Ascii.eqb_spec c sep) as [->|_]; [elim H; now left|].
    destruct IH as [rest ->]; [intros E; apply H; now right|]. eauto.
Qed.

Lemma split_head_whole sep a :
  ~ In sep (list_ascii_of_string a) -> split sep a = [a].
Proof.
  induction a as [|c a IH]; cbn [split list_ascii_of_string]; intros H; auto.
  destruct (Ascii.eqb_spec c sep) as [->|_]; [elim H; now left|].
  rewrite IH; [reflexivity|]. intros E; apply H; now right.
Qed.

Lemma ui_link_some request p :
  exists host,
    ui_link request (Some p)
    = Ok (Some ("http://" ++ host ++ ":" ++ str (PortInfo.port p))%string) /\
    split ":" (link_source request p) = host :: tl (split ":" (link_source request p)).
Proof.
  unfold ui_link. fold (link_source request p).
  destruct (split_head ":" (link_source request p)) as (h & rest & Hs & _).
  exists h. rewrite Hs. split; reflexivity.
Qed.

Section PageProperties.

Variable World : Type.
Variable docker_list : bool -> World -> result (list Container.t) * World.
Variable docker_get : string -> World -> result Container.t * World.
Variable docker_reload : Container.t -> World -> result Container.t * World.
Variable docker_ping : World -> result bool * World.
Variable message : exn -> string.
Variable g : Globals.

Lemma Depends_view_eq {A} (dependency : result unit) (body : view World A) s :
  Depends_view World dependency body s =
  match dependency with
  | Ok _ => body s
  | Raise e => (Raise e, s)
  end.
Proof. unfold Depends_view, vbind, of_result. now destruct dependency. Qed.

Lemma dto_ok c s v s' :
  dto World docker_reload c s = (Ok v, s') ->
  viewed World docker_reload c v /\ snd s' = snd s ++ [container_reload c].
Proof.
  unfold dto. destruct (docker_reload c (fst s)) as [r w] eqn:Hr.
  intros [= Hv <-]. split; [|reflexivity].
  destruct r as [c'|e]; [|discriminate].
  now exists (fst s), c', w.
Qed.

Lemma for_containers_ok cs :
  forall items s out s',
    for_containers World docker_reload cs items s = (Ok out, s') ->
    exists vs,
      out = items ++ vs /\ Forall2 (viewed World docker_reload) cs vs /\
      snd s' = snd s ++ map container_reload cs.
Proof.
  induction cs as [|c rest IH]; intros items s out s'; cbn [for_containers].
  - intros [= <- <-]. exists []. now rewrite !app_nil_r.
  - unfold vbind.
    destruct (dto World docker_reload c s) as [[v|e] s1] eqn:Hd; [|discriminate].
    intros H. apply IH in H as (vs & -> & Hvs & Hlog).
    apply dto_ok in Hd as [Hv Hlog1].
    exists (v :: vs). rewrite <- app_assoc. repeat split; auto.
    rewrite Hlog, Hlog1, <- app_assoc. reflexivity.
Qed.

Lemma home_ok request s pg s' :
  home World docker_list docker_reload g request s = (Ok pg, s') ->
  require_auth g request = Ok tt /\
  exists cs w1 items,
    docker_list true (fst s) = (Ok cs, w1) /\
    pg = index_html items (ALLOW_ACTIONS g) /\
    Forall2 (viewed World docker_reload) cs items /\
    snd s' = snd s ++ containers_list true :: map container_reload cs.
Proof.
  unfold home. rewrite Depends_view_eq.
  destruct (require_auth g request) as [[]|e]; [|discriminate].
  unfold vbind at 1. unfold ask.
  destruct (docker_list true (fst s)) as [[cs|e] w1] eqn:Hlist; [|discriminate].
  unfold vbind.
  destruct (for_containers World docker_reload cs [] _) as [[items|e] s1] eqn:Hfor;
    [|discriminate].
  unfold pure. intros [= <- <-]. split; [reflexivity|].
  apply for_containers_ok in Hfor as (vs & -> & Hvs & Hlog).
  exists cs, w1, vs. repeat split; auto.
  rewrite Hlog. cbn [snd]. now rewrite <- app_assoc.
Qed.

(** X7.  A list page that is served was built from all containers, stopped
    ones included: the gate admitted the request, the runtime was asked
    once for the list with [all=True] and then once for a reload of each
    container in list order, and the page carries one view per container
    in that order, each built from the reloaded container, and the
    actions flag. *)
Theorem home_lists_every_container :
  forall (request : Request.t) (s s' : visit World) (pg : page),
    home World docker_list docker_reload g request s = (Ok pg, s') ->
    require_auth g request = Ok tt /\
    exists cs w1 items,
      docker_list true (fst s) = (Ok cs, w1) /\
      pg = index_html items (ALLOW_ACTIONS g) /\
      Forall2 (viewed World docker_reload) cs items /\
      List.length items = List.length cs /\
      snd s' = snd s ++ containers_list true :: map container_reload cs.
Proof.
  intros request s s' pg H.
  apply home_ok in H as (Hauth & cs & w1 & items & Hlist & Hpg & Hvs & Hlog).
  split; [exact Hauth|]. exists cs, w1, items. repeat split; auto.
  symmetry. eapply Forall2_length; eauto.
Qed.

Lemma home_total request s :
  exists r s', home World docker_list docker_reload g request s = (r, s').
Proof. destruct (home _ _ _ _ _ s) as [r s']. eauto. Qed.

(** X8.  One broken container breaks the whole list page: when the gate
    admits the request and the list holds a container whose image lookup
    fails after every reload, the page is not served and an exception is
    the answer. *)
Theorem home_fails_on_broken_container :
  forall (request : Request.t) (s : visit World) cs w1 c,
    require_auth g request = Ok tt ->
    docker_list true (fst s) = (Ok cs, w1) ->
    In c cs ->
    (forall w c' w',
        docker_reload c w = (Ok c', w') -> exists e, Container.image c' = Raise e) ->
    exists e s', home World docker_list docker_reload g request s = (Raise e, s').
Proof.
  intros request s cs w1 c Hauth Hlist Hin Hbroken.
  destruct (home_total request s) as ([pg|e] & s' & H); [|eauto].
  exfalso.
  apply home_ok in H as (_ & cs' & w1' & items & Hlist' & _ & Hvs & _).
  rewrite Hlist in Hlist'. injection Hlist' as <- <-.
  assert (Hv : exists v, viewed World docker_reload c v).
  { clear - Hvs Hin. induction Hvs as [|c0 v cs vs Hc _ IH]; [contradiction|].
    destruct Hin as [<-|Hin]; eauto. }
  destruct Hv as (v & w & c' & w' & Hreload & Hdto).
  destruct (Hbroken _ _ _ Hreload) as [e He].
  rewrite (dto_needs_image_lookup (fun _ => Ok c') c c' e eq_refl He) in Hdto.
  discriminate.
Qed.

Lemma container_detail_ok name request s pg s' :
  container_detail World docker_get docker_reload g name request s = (Ok pg, s') ->
  require_auth g request = Ok tt /\
  exists c d http_port ui_href,
    viewed World docker_reload c d /\
    _find_first_http_port g (ContainerDTO.ports d) = Ok http_port /\
    ui_link request http_port = Ok ui_href /\
    pg = container_html d ui_href (ALLOW_ACTIONS g) /\
    snd s' = snd s ++ [on_client (containers_get name); container_reload c].
Proof.
  unfold container_detail. rewrite Depends_view_eq.
  destruct (require_auth g request) as [[]|e]; [|discriminate].
  unfold vbind at 1. unfold ask.
  destruct (docker_get name (fst s)) as [[c|e] w1]; [|discriminate].
  unfold vbind at 1.
  destruct (dto World docker_reload c _) as [[d|e] s1] eqn:Hd; [|discriminate].
  unfold vbind, of_result, pure.
  destruct (_find_first_http_port g (ContainerDTO.ports d)) as [hp|e] eqn:Hfind;
    [|discriminate].
  destruct (ui_link request hp) as [ui|e] eqn:Hui; [|discriminate].
  intros [= <- <-]. split; [reflexivity|].
  apply dto_ok in Hd as [Hv Hlog].
  exists c, d, hp, ui.
  split; [exact Hv|]. split; [exact Hfind|]. split; [exact Hui|].
  split; [reflexivity|].
  rewrite Hlog. cbn [snd]. now rewrite <- app_assoc.
Qed.

(** X9.  A container page that is served carries a UI link exactly when
    the container has a published port; it was built with one lookup of
    the container and one reload, and carries the actions flag. *)
Theorem container_detail_link_iff_ports :
  forall (name : string) (request : Request.t) (s s' : visit World)
         (d : ContainerDTO.t) (ui_href : option string) (allow : bool),
    container_detail World docker_get docker_reload g name request s
      = (Ok (container_html d ui_href allow), s') ->
    (ui_href = None <-> ContainerDTO.ports d = []) /\
    allow = ALLOW_ACTIONS g /\
    exists c,
      viewed World docker_reload c d /\
      snd s' = snd s ++ [on_client (containers_get name); container_reload c].
Proof.
  intros name request s s' d ui_href allow H.
  apply container_detail_ok in H
    as (_ & c & d' & hp & ui & Hv & Hfind & Hui & Hpg & Hlog).
  injection Hpg as Hd Hlink Hallow. subst d' ui allow.
  rewrite find_first_http_port_eq in Hfind.
  split; [|split; [reflexivity|eauto]].
  destruct (ContainerDTO.ports d) as [|p0 rest].
  - injection Hfind as <-. cbn in Hui. injection Hui as <-. tauto.
  - assert (Hp : exists p, hp = Some p).
    { destruct (candidates _ _); injection Hfind as <-; eauto. }
    destruct Hp as [p ->].
    destruct (ui_link_some request p) as (host & Hlink & _).
    rewrite Hlink in Hui. injection Hui as <-. split; discriminate.
Qed.

(** X10.  The UI link of a served container page is "http://", a host, a
    colon and the decimal port of the binding the heuristic picked among
    the view's ports.  The host is the Host header of the request up to its
    first colon or, without that header, the binding's host up to its first
    colon; so a binding host without a colon is used whole when the request
    has no Host header. *)
Theorem container_detail_link_shape :
  forall (name : string) (request : Request.t) (s s' : visit World)
         (d : ContainerDTO.t) (link : string) (allow : bool),
    container_detail World docker_get docker_reload g name request s
      = (Ok (container_html d (Some link) allow), s') ->
    exists p,
      _find_first_http_port g (ContainerDTO.ports d) = Ok (Some p) /\
      In p (ContainerDTO.ports d) /\
      (exists host,
          link = ("http://" ++ host ++ ":" ++ str (PortInfo.port p))%string /\
          ~ In ":"%char (list_ascii_of_string host) /\
          (link_source request p = host \/
           exists t, link_source request p = (host ++ String ":" t)%string)) /\
      (forall host,
          ~ In ":"%char (list_ascii_of_string host) ->
          (link_source request p = host \/
           exists t, link_source request p = (host ++ String ":" t)%string) ->
          link = ("http://" ++ host ++ ":" ++ str (PortInfo.port p))%string) /\
      (Headers.get (Request.headers request) "host" = None ->
       ~ In ":"%char (list_ascii_of_string (PortInfo.host p)) ->
       link = ("http://" ++ PortInfo.host p ++ ":" ++ str (PortInfo.port p))%string).
Proof.
  intros name request s s' d link allow H.
  apply container_detail_ok in H
    as (_ & c & d' & hp & ui & Hv & Hfind & Hui & Hpg & Hlog).
  injection Hpg as Hd Hlink Hallow. subst d' ui allow.
  destruct hp as [p|]; [|discriminate].
  unfold ui_link in Hui. fold (link_source request p) in Hui.
  assert (Hunique :
            forall host,
              ~ In ":"%char (list_ascii_of_string host) ->
              (link_source request p = host \/
               exists t, link_source request p = (host ++ String ":" t)%string) ->
              link = ("http://" ++ host ++ ":" ++ str (PortInfo.port p))%string).
  { intros host Hhost [E | [t E]]; rewrite E in Hui.
    - rewrite (split_head_whole _ _ Hhost) in Hui.
      cbn [index nth_error bind] in Hui. now injection Hui as <-.
    - destruct (split_head_app ":" host t Hhost) as [rest Hs].
      rewrite Hs in Hui.
      cbn [index nth_error bind] in Hui. now injection Hui as <-. }
  exists p. split; [exact Hfind|]. split; [|split; [|split]].
  - rewrite find_first_http_port_eq in Hfind.
    destruct (ContainerDTO.ports d) as [|p0 rest0] eqn:Hports; [discriminate|].
    destruct (candidates (PORT_HINTS g) (p0 :: rest0)) as [|q qs] eqn:Hc;
      injection Hfind as <-.
    + now left.
    + apply (candidates_incl (PORT_HINTS g)). rewrite Hc. now left.
  - destruct (split_head ":" (link_source request p))
      as (h & rest & Hs & Hh & Hshape).
    exists h. split; [|split]; auto.
  - exact Hunique.
  - intros Hnone Hhost. apply (Hunique _ Hhost).
    right. exists (str (PortInfo.port p)).
    unfold link_source. rewrite Hnone. reflexivity.
Qed.

Lemma healthz_eq s :
  healthz World docker_ping message s =
  match docker_ping (fst s) with
  | (Ok _, w) => (Ok health_ok, (w, snd s ++ [ping]))
  | (Raise e, w) => (Ok (health_response 500 (message e)), (w, snd s ++ [ping]))
  end.
Proof.
  unfold healthz, try_except_Exception, vbind, ask, pure.
  now destruct (docker_ping (fst s)) as [[b|e] w].
Qed.

(** X11.  The health check never raises and pings the runtime exactly
    once: it answers [{"ok": True}] when the ping returns, and status 500
    with the exception's text when the ping raises. *)
Theorem healthz_never_raises :
  forall (s : visit World),
    exists h w,
      healthz World docker_ping message s = (Ok h, (w, snd s ++ [ping])) /\
      (h = health_ok <-> exists b, docker_ping (fst s) = (Ok b, w)) /\
      (forall e, docker_ping (fst s) = (Raise e, w) ->
                 h = health_response 500 (message e)).
Proof.
  intros s. rewrite healthz_eq.
  destruct (docker_ping (fst s)) as [[b|e] w].
  - exists health_ok, w. repeat split; eauto. discriminate.
  - exists (health_response 500 (message e)), w. repeat split; try discriminate.
    + intros [b [=]].
    + now intros e' [= <-].
Qed.

End PageProperties.

(* ================================================================== *)
(** * Properties of the view builder and of port extraction *)
(* ================================================================== *)

(** The view is built when the reload and the image lookup succeed. *)
Lemma dto_image_ok reload c0 c i :
  reload c0 = Ok c ->
  Container.image c = Ok i ->
  exists v, _dto reload c0 = Ok v.
Proof.
  intros Hreload Himage. unfold _dto. rewrite Hreload. cbn [bind].
  rewrite (image_default_eq _ _ Himage). cbn [bind].
  rewrite extract_published_ports_eq. cbn [bind]. eauto.
Qed.

(** X12.  The view is built exactly when the reload and the image lookup
    succeed; otherwise the reload's error, or else the image lookup's, is
    raised.  Port extraction never stands in the way. *)
Theorem dto_succeeds_iff :
  forall (reload : Container.t -> result Container.t) (c0 : Container.t),
    ((exists v, _dto reload c0 = Ok v) <->
     (exists c i, reload c0 = Ok c /\ Container.image c = Ok i)) /\
    (forall e,
        _dto reload c0 = Raise e <->
        reload c0 = Raise e \/
        exists c, reload c0 = Ok c /\ Container.image c = Raise e).
Proof.
  intros reload c0.
  destruct (reload c0) as [c|e0] eqn:Hreload.
  - destruct (Container.image c) as [i|e1] eqn:Himage.
    + destruct (dto_image_ok reload c0 c i Hreload Himage) as [v Hv].
      rewrite Hv. split.
      * split; eauto.
      * intros e. split; [discriminate|].
        intros [H | (c' & [= <-] & H)]; congruence.
    + rewrite (dto_needs_image_lookup reload c0 c e1 Hreload Himage). split.
      * split; [intros [v H]; discriminate|].
        intros (c' & i & [= <-] & H). congruence.
      * intros e. split.
        -- intros [= <-]. right. eauto.
        -- intros [H | (c' & [= <-] & H)]; congruence.
  - assert (H : _dto reload c0 = Raise e0)
      by (unfold _dto; now rewrite Hreload).
    rewrite H. split.
    + split; [intros [v Hv]; discriminate|]. intros (c & i & Hc & _). discriminate.
    + intros e. split.
      * intros [= <-]. now left.
      * intros [[= <-] | (c & Hc & _)]; [reflexivity|discriminate].
Qed.

(** X13.  Every field of a view comes from the container as reloaded,
    not as passed in: id, name and status are the reloaded container's,
    the state is its inspection data's [State.Status], or "unknown" when
    [State] or [Status] is absent, and the ports are what port extraction
    gives for it. *)
Theorem dto_reads_reloaded_container :
  forall (reload : Container.t -> result Container.t) (c0 : Container.t)
         (v : ContainerDTO.t),
    _dto reload c0 = Ok v ->
    exists c,
      reload c0 = Ok c /\
      ContainerDTO.id v = Container.short_id c /\
      ContainerDTO.name v = Container.name c /\
      ContainerDTO.status v = Container.status c /\
      ContainerDTO.state v =
        match State (Container.attrs c) with
        | Some {| Status := Some text |} => text
        | _ => "unknown"
        end /\
      _extract_published_ports c = Ok (ContainerDTO.ports v).
Proof.
  intros reload c0 v H. unfold _dto in H.
  destruct (reload c0) as [c|e]; [|discriminate]. cbn [bind] in H.
  destruct (image_default c) as [default|e]; [|discriminate]. cbn [bind] in H.
  rewrite extract_published_ports_eq in H. cbn [bind] in H.
  injection H as <-. exists c. cbn.
  rewrite extract_published_ports_eq.
  repeat split.
  destruct (State (Container.attrs c)) as [[[text|]]|]; reflexivity.
Qed.

(** X14.  A container without published ports has an empty ports list,
    never an error: that is so when its inspection data has no
    [NetworkSettings], when [Ports] is absent, null or empty, and when
    every port key has a null or empty binding list. *)
Theorem extract_published_ports_none :
  forall (c : Container.t),
    (NetworkSettings (Container.attrs c) = None \/
     (exists net,
         NetworkSettings (Container.attrs c) = Some net /\
         (Ports net = None \/ Ports net = Some None \/ Ports net = Some (Some []))) \/
     (forall k bs, In (k, bs) (port_map c) -> bs = None \/ bs = Some [])) ->
    _extract_published_ports c = Ok [].
Proof.
  intros c H. rewrite extract_published_ports_eq. f_equal.
  assert (Hitems : forall k bs, In (k, bs) (port_map c) -> bs = None \/ bs = Some []).
  { destruct H as [H | [(net & Hnet & H) | H]]; [| |exact H];
      unfold port_map; rewrite ?H, ?Hnet; cbn [dict_get].
    - intros k bs [].
    - destruct H as [-> | [-> | ->]]; intros k bs []. }
  clear H. unfold published_ports.
  induction (port_map c) as [|[k bs] rest IH]; [reflexivity|].
  cbn [flat_map]. rewrite IH by (intros; apply (Hitems k0); now right).
  destruct (Hitems k bs (or_introl eq_refl)) as [-> | ->]; reflexivity.
Qed.

Lemma length_binding_ports bs :
  List.length (flat_map binding_ports bs) = List.length (filter valid_port bs).
Proof.
  induction bs as [|b bs IH]; [reflexivity|].
  cbn [flat_map filter]. rewrite length_app, IH.
  unfold binding_ports, valid_port.
  now destruct (Py.int (HostPort b)).
Qed.

Lemma published_ports_entries pm :
  published_ports pm = flat_map binding_ports (entries pm).
Proof.
  unfold published_ports, entries.
  induction pm as [|[k bs] rest IH]; [reflexivity|].
  cbn [flat_map]. rewrite flat_map_app, IH. unfold item_ports. cbn [snd].
  now destruct bs.
Qed.

(** X15.  The result of extraction depends on the port map only through
    its sequence of binding entries, and holds as many PortBindings as
    there are entries whose host port [int] accepts: never more than
    there are entries. *)
Theorem extract_published_ports_count :
  forall (c : Container.t),
    exists ports,
      _extract_published_ports c = Ok ports /\
      ports = flat_map binding_ports (entries (port_map c)) /\
      List.length ports = List.length (filter valid_port (entries (port_map c))) /\
      (List.length ports <= List.length (entries (port_map c)))%nat.
Proof.
  intros c. rewrite extract_published_ports_eq, published_ports_entries.
  eexists. split; [reflexivity|]. split; [reflexivity|].
  rewrite length_binding_ports. split; [reflexivity|].
  apply filter_length_le.
Qed.

(* ------------------------------------------------------------------ *)
(** ** [int] after [str] *)












(* ================================================================== *)
(** * Properties of the port hints (line 38) *)
(* ================================================================== *)

Lemma split_nonempty sep s : split sep s <> [].
Proof.
  destruct s as [|c s]; cbn [split]; [discriminate|].
  destruct (Ascii.eqb c sep); [discriminate|].
  destruct (split sep s); discriminate.
Qed.

Lemma split_no_sep sep s p : In p (split sep s) -> ~ In sep (chars p).
Proof.
  revert p. induction s as [|c s IH]; intros p; cbn [split].
  - intros [<-|[]]. intros [].
  - destruct (Ascii.eqb_spec c sep) as [->|Hc].
    + intros [<-|H]; [intros []|now apply IH].
    + destruct (split sep s) as [|h r] eqn:Hs; [now elim (split_nonempty sep s)|].
      intros [<-|H].
      * cbn. intros [E|E]; [now elim Hc|].
        apply (IH h); [now left|exact E].
      * apply IH. now right.
Qed.

Lemma lstrip_chars s a : In a (chars (lstrip s)) -> In a (chars s).
Proof.
  induction s as [|c s IH]; cbn [lstrip]; [auto|].
  destruct (isspace c); [intros H; right; now apply IH|auto].
Qed.

Lemma rstrip_chars s a : In a (chars (rstrip s)) -> In a (chars s).
Proof.
  induction s as [|c s IH]; cbn [rstrip]; [auto|].
  destruct (rstrip s) as [|b t].
  - destruct (isspace c); [intros []|]. intros [<-|[]]. now left.
  - intros [<-|H]; [now left|right; now apply IH].
Qed.

Lemma lstrip_clean s : clean_head (lstrip s).
Proof.
  induction s as [|c s IH]; cbn [lstrip]; [exact I|].
  destruct (isspace c) eqn:E; [exact IH|exact E].
Qed.

Lemma lstrip_fixed s : clean_head s -> lstrip s = s.
Proof. destruct s as [|c s]; cbn; [reflexivity|]. now intros ->. Qed.

Lemma rstrip_clean s : clean_head s -> clean_head (rstrip s).
Proof.
  destruct s as [|c s]; cbn [rstrip clean_head]; [auto|]. intros Hc.
  destruct (rstrip s); [rewrite Hc|]; exact Hc.
Qed.

Lemma rstrip_idempotent s : rstrip (rstrip s) = rstrip s.
Proof.
  induction s as [|c s IH]; [reflexivity|]. cbn [rstrip].
  destruct (rstrip s) as [|b t] eqn:Hr.
  - destruct (isspace c) eqn:E; [reflexivity|]. cbn [rstrip]. now rewrite E.
  - change (rstrip (String c (String b t))) with
      (match rstrip (String b t) with
       | EmptyString => if isspace c then EmptyString else String c EmptyString
       | String b' t' => String c (String b' t')
       end).
    now rewrite IH.
Qed.

Lemma strip_idempotent s : strip (strip s) = strip s.
Proof.
  unfold strip.
  rewrite (lstrip_fixed (rstrip (lstrip s))) by apply rstrip_clean, lstrip_clean.
  apply rstrip_idempotent.
Qed.

Lemma stripped_parts_in parts h :
  In h (stripped_parts parts) ->
  exists p, In p parts /\ h = strip p /\ truthy_str (strip p) = true.
Proof.
  induction parts as [|p rest IH]; cbn [stripped_parts]; [intros []|].
  destruct (truthy_str (strip p)) eqn:E.
  - intros [<-|H]; [exists p; auto using in_eq|].
    destruct (IH H) as (p' & Hp & Hh). exists p'. split; [now right|exact Hh].
  - intros H. destruct (IH H) as (p' & Hp & Hh). exists p'. split; [now right|exact Hh].
Qed.

(** X18.  Whatever [DOCKTILES_HTTP_SCHEMES] holds, every port hint is a
    non-empty string with no comma in it and no white space at either
    end: stripping it again changes nothing. *)
Theorem port_hints_are_clean :
  forall (env : environ) (hint : string),
    In hint (PORT_HINTS (load_globals env)) ->
    hint <> "" /\ ~ In ","%char (chars hint) /\ strip hint = hint.
Proof.
  intros env hint H. cbn [load_globals PORT_HINTS] in H.
  apply stripped_parts_in in H as (p & Hp & -> & Htruthy).
  split; [|split].
  - intros E. rewrite E in Htruthy. discriminate.
  - intros Hcomma. apply (split_no_sep _ _ _ Hp).
    unfold strip in Hcomma. now apply lstrip_chars, rstrip_chars.
  - apply strip_idempotent.
Qed.

(* ================================================================== *)
(** * The further properties at concrete inputs *)
(* ================================================================== *)

Lemma gate_rejection_makes_no_call_witness :
  start_container unit idle_get idle_action (globals (Some "s3cret") true [])
                  "web" no_header (tt, [])
    = (Raise (HTTPException 401 "Missing bearer token"), (tt, [])) /\
  container_logs unit idle_get (idle_logs []) (globals (Some "s3cret") true [])
                 "web" None no_header (tt, [])
    = (Raise (HTTPException 401 "Missing bearer token"), (tt, [])).
Proof.
  destruct (gate_rejection_makes_no_call unit idle_get idle_action idle_action
              idle_action (idle_logs []) (globals (Some "s3cret") true [])
              "web" None no_header (tt, [])
              (HTTPException 401 "Missing bearer token") eq_refl)
    as (Hstart & _ & _ & Hlogs).
  split; assumption.
Defined.

Lemma action_endpoints_enabled_witness :
  stop_container unit idle_get idle_action (globals None true [])
                 "web" no_header (tt, [])
    = (Ok ok_true, (tt, [containers_get "web"; stop the_container])) /\
  stop_container unit absent_get idle_action (globals None true [])
                 "web" no_header (tt, [])
    = (Raise not_found, (tt, [containers_get "web"])).
Proof.
  split.
  - exact (proj1 (proj2 (proj2 (action_endpoints_enabled unit idle_get idle_action
                                  idle_action idle_action (globals None true [])
                                  "web" no_header (tt, []) eq_refl eq_refl)
                           the_container tt eq_refl))
             (Ok tt) tt eq_refl).
  - exact (proj1 (proj2 (proj1 (action_endpoints_enabled unit absent_get idle_action
                                  idle_action idle_action (globals None true [])
                                  "web" no_header (tt, []) eq_refl eq_refl)
                           not_found tt eq_refl))).
Defined.

Lemma container_logs_failures_witness :
  container_logs unit absent_get (idle_logs []) (globals None true [])
                 "web" None no_header (tt, [])
    = (Raise not_found, (tt, [containers_get "web"])) /\
  container_logs unit idle_get failing_logs (globals None true [])
                 "web" (Some 10) no_header (tt, [])
    = (Raise (DockerException "500 Server Error"),
       (tt, [containers_get "web"; logs the_container 10])).
Proof.
  split.
  - exact (proj1 (container_logs_failures unit absent_get (idle_logs [])
                    (globals None true []) "web" None no_header (tt, []) eq_refl)
             not_found tt eq_refl).
  - exact (proj1 (proj2 (container_logs_failures unit idle_get failing_logs
                           (globals None true []) "web" (Some 10) no_header (tt, [])
                           eq_refl))
             the_container tt (DockerException "500 Server Error") tt
             eq_refl eq_refl).
Defined.

Lemma container_logs_valid_utf8_witness :
  container_logs unit idle_get (idle_logs [xc3; xa9; x0a]) (globals None true [])
                 "web" None no_header (tt, [])
    = (Ok (PlainTextResponse [233; 10]%N),
       (tt, [containers_get "web"; logs the_container 200])).
Proof.
  exact (container_logs_valid_utf8 unit idle_get (idle_logs [xc3; xa9; x0a])
           (globals None true []) "web" None no_header (tt, [])
           the_container tt [xc3; xa9; x0a] tt [233; 10]%N
           eq_refl eq_refl eq_refl eq_refl).
Defined.

Lemma container_logs_ascii_witness :
  container_logs unit idle_get (idle_logs [x68; x69]) (globals None true [])
                 "web" None no_header (tt, [])
    = (Ok (PlainTextResponse [104; 105]%N),
       (tt, [containers_get "web"; logs the_container 200])).
Proof.
  apply (container_logs_ascii unit idle_get (idle_logs [x68; x69])
           (globals None true []) "web" None no_header (tt, [])
           the_container tt [x68; x69] tt eq_refl eq_refl eq_refl).
  repeat constructor.
Defined.

Lemma home_lists_every_container_witness :
  exists cs items,
    idle_list [web_container; the_container] true tt = (Ok cs, tt) /\
    Forall2 (viewed unit idle_reload) cs items /\
    List.length items = 2%nat.
Proof.
  destruct (home_lists_every_container unit
              (idle_list [web_container; the_container]) idle_reload
              (globals None true []) no_header (tt, [])
              (snd (home unit (idle_list [web_container; the_container]) idle_reload
                         (globals None true []) no_header (tt, [])))
              (index_html
                 [web_view;
                  {| ContainerDTO.id := "4f5e6d7c8b9a";
                     ContainerDTO.name := "web";
                     ContainerDTO.image := "sha256:0123456789ab";
                     ContainerDTO.status := "running";
                     ContainerDTO.state := "running";
                     ContainerDTO.ports := [] |}] true)
              eq_refl)
    as (_ & cs & w1 & items & Hlist & _ & Hviews & Hlen & _).
  exists cs, items. destruct w1.
  split; [exact Hlist|]. split; [exact Hviews|].
  rewrite Hlen. injection Hlist as <-. reflexivity.
Defined.

Lemma home_fails_on_broken_container_witness :
  exists e s',
    home unit (idle_list [web_container; broken_container]) idle_reload
         (globals None true []) no_header (tt, [])
    = (Raise e, s').
Proof.
  apply (home_fails_on_broken_container unit
           (idle_list [web_container; broken_container]) idle_reload
           (globals None true []) no_header (tt, [])
           [web_container; broken_container] tt broken_container
           eq_refl eq_refl).
  - right. left. reflexivity.
  - intros w c' w' H. injection H as <- _.
    exists (DockerException "404 Client Error: No such image"). reflexivity.
Defined.

Lemma container_detail_link_iff_ports_witness :
  (Some "http://localhost:8080" = None <-> ContainerDTO.ports web_view = []) /\
  true = ALLOW_ACTIONS (globals None true DEFAULT_PORT_HINTS).
Proof.
  destruct (container_detail_link_iff_ports unit web_get idle_reload
              (globals None true DEFAULT_PORT_HINTS) "web"
              (with_host "localhost:8000") (tt, [])
              (tt, [on_client (containers_get "web"); container_reload web_container])
              web_view (Some "http://localhost:8080") true eq_refl)
    as (Hiff & Hallow & _).
  split; assumption.
Defined.

Lemma container_detail_link_shape_witness :
  exists p,
    _find_first_http_port (globals None true DEFAULT_PORT_HINTS)
                          (ContainerDTO.ports web_view) = Ok (Some p) /\
    In p (ContainerDTO.ports web_view) /\
    (~ In ":"%char (list_ascii_of_string (PortInfo.host p)) ->
     "http://0.0.0.0:8080" = ("http://" ++ PortInfo.host p ++ ":"
                                ++ str (PortInfo.port p))%string).
Proof.
  destruct (container_detail_link_shape unit web_get idle_reload
              (globals None true DEFAULT_PORT_HINTS) "web" no_header (tt, [])
              (tt, [on_client (containers_get "web"); container_reload web_container])
              web_view "http://0.0.0.0:8080" true eq_refl)
    as (p & Hfind & Hin & _ & _ & Hbare).
  exists p. split; [exact Hfind|]. split; [exact Hin|].
  exact (Hbare eq_refl).
Defined.

Lemma healthz_never_raises_witness :
  exists h w,
    healthz unit down_ping explanation_of (tt, []) = (Ok h, (w, [ping])) /\
    h = health_response 500 "Connection refused".
Proof.
  destruct (healthz_never_raises unit down_ping explanation_of (tt, []))
    as (h & w & Hrun & _ & Hdown).
  exists h, w. split; [exact Hrun|].
  apply (Hdown (DockerException "Connection refused")).
  destruct w. reflexivity.
Defined.

Lemma dto_succeeds_iff_witness :
  (exists v, _dto (fun c => Ok c) web_container = Ok v) /\
  _dto (fun c => Ok c) broken_container
    = Raise (DockerException "404 Client Error: No such image").
Proof.
  split.
  - apply (proj2 (proj1 (dto_succeeds_iff (fun c => Ok c) web_container))).
    exists web_container, (nginx_image ["nginx:1.27"]). split; reflexivity.
  - apply (proj2 (proj2 (dto_succeeds_iff (fun c => Ok c) broken_container) _)).
    right. exists broken_container. split; reflexivity.
Defined.

Lemma dto_reads_reloaded_container_witness :
  exists c,
    c = web_container /\
    ContainerDTO.name web_view = Container.name c /\
    _extract_published_ports c = Ok (ContainerDTO.ports web_view).
Proof.
  destruct (dto_reads_reloaded_container (fun _ => Ok web_container) the_container
              web_view eq_refl)
    as (c & Hc & _ & Hname & _ & _ & Hports).
  exists c. split; [now injection Hc|]. split; assumption.
Defined.

Lemma extract_published_ports_none_witness :
  _extract_published_ports broken_container = Ok [] /\
  _extract_published_ports
    (container None (nginx_image []) [("80/tcp", None); ("443/tcp", Some [])])
  = Ok [].
Proof.
  split.
  - apply extract_published_ports_none. left. reflexivity.
  - apply extract_published_ports_none. right. right.
    intros k bs [[= <- <-]|[[= <- <-]|[]]]; auto.
Defined.



Lemma port_hints_are_clean_witness :
  "443" <> "" /\ ~ In ","%char (chars "443") /\ strip "443" = "443".
Proof.
  apply (port_hints_are_clean (schemes_env " 80 , ,443")).
  right. left. reflexivity.
Defined.
